(** * Adphi/ldap: struct <-> directory entry marshalling

    A shallow embedding of the reflection-driven encoder and decoder
    ([encode.go], [decode.go], [marshal.go], each in the two versions the
    repository holds) and the properties the specification states about
    them.

    Conventions of the embedding.
    - A Go [string] is a byte sequence: Rocq's [string] (one [ascii] per byte).
    - A [reflect.Type] is an [rtype], a finite tree (no recursive types); a
      [reflect.Value] is an [rtype] with a [value]. Records are trees: a
      pointer owns its variable, two fields never point at the same one.
      The methods the package looks for are carried by [TNamed]; fields of
      interface type are not represented.
    - Functions of Go's standard library whose tables are not part of this
      repository (Unicode case mapping outside ASCII, float formatting and
      parsing, [time.Parse]) are the fields of a [Libs] record every
      definition is parameterised by.
    - A Go run-time panic is the outcome [Panic] (or [Crash] for a call
      that writes through its argument); an [error] return is [Err].
    - An [*Entry] and the [*EntryAttribute]s it holds are non-nil. *)

From Stdlib Require Import ZArith List Bool Ascii String Lia.
From Stdlib Require Import DecimalString DecimalZ DecimalN DecimalPos DecimalFacts.
Import ListNotations.
#[local] Set Warnings "-register-all".
Open Scope string_scope.
Open Scope Z_scope.

(** ** Bytes and strings *)

Definition byte_of (c : ascii) : Z := Z.of_N (N_of_ascii c).
Definition ascii_of_Z (z : Z) : ascii := ascii_of_N (Z.to_N (z mod 256)).

Definition chars (s : string) : list ascii := list_ascii_of_string s.
Definition str (l : list ascii) : string := string_of_list_ascii l.

Definition in_range (lo hi : Z) (c : ascii) : bool :=
  (lo <=? byte_of c) && (byte_of c <=? hi).

(** [utf8.RuneSelf]: bytes below 0x80 are single-byte runes. *)
Definition isASCIIbyte (c : ascii) : bool := byte_of c <? 128.
Definition isASCII (s : string) : bool := forallb isASCIIbyte (chars s).

Definition lowerByte (c : ascii) : ascii :=
  if in_range 65 90 c then ascii_of_Z (byte_of c + 32) else c.
Definition upperByte (c : ascii) : ascii :=
  if in_range 97 122 c then ascii_of_Z (byte_of c - 32) else c.

(** The standard-library functions that are not part of the repository. *)
Record Libs := {
  (** [strings.Map(unicode.ToLower, s)] on a string with a byte >= 0x80 *)
  lowerNonASCII : string -> string;
  (** [strings.Map(unicode.ToUpper, s)] on a string with a byte >= 0x80 *)
  upperNonASCII : string -> string;
  (** whether an identifier starting with a byte >= 0x80 is exported *)
  exportedNonASCII : string -> bool;
  (** [fmt.Sprintf("%f", f)]; the flag is true for a [float32]; a float is
      the bit pattern of its [float64] value *)
  formatFloat : bool -> Z -> string;
  (** [strconv.ParseFloat(a, 64)]: the float, or the error (true when it
      is a range error, false for a syntax error) *)
  ParseFloat : string -> Z + bool;
  (** the conversion [float64(float32(x))] done by [SetFloat] *)
  roundFloat32 : Z -> Z;
  (** [time.Parse("20060102150405.0Z", s)] as Unix seconds and nanoseconds,
      [None] when it returns an error *)
  parseLayout : string -> option (Z * Z)
}.

(** [strings.ToLower]: the ASCII fast path, else the Unicode tables. *)
Definition ToLower (L : Libs) (s : string) : string :=
  if isASCII s then str (map lowerByte (chars s)) else lowerNonASCII L s.

Definition ToUpper (L : Libs) (s : string) : string :=
  if isASCII s then str (map upperByte (chars s)) else upperNonASCII L s.

(** [unicode.IsUpper(rune(b))] for a byte [b]: the Latin-1 upper-case
    letters. *)
Definition IsUpper (c : ascii) : bool :=
  in_range 65 90 c || in_range 192 214 c || in_range 216 222 c.

(** [string(unicode.ToLower(rune(b)))] for a byte [b]: the lower-case
    Latin-1 letter, UTF-8 encoded. *)
Definition lowerRune (c : ascii) : string :=
  let r := if IsUpper c then byte_of c + 32 else byte_of c in
  if r <? 128 then String (ascii_of_Z r) ""
  else String (ascii_of_Z (192 + r / 64)) (String (ascii_of_Z (128 + r mod 64)) "").

(** [strings.Split(t, ",")]: always at least one part. *)
Fixpoint splitComma (l : list ascii) : list (list ascii) :=
  match l with
  | [] => [[]]
  | c :: l' =>
      if (c =? ",")%char then [] :: splitComma l'
      else match splitComma l' with
           | p :: ps => (c :: p) :: ps
           | [] => [[c]]
           end
  end.

Definition Split (t : string) : list string := map str (splitComma (chars t)).

(** [strings.TrimSpace]: White_Space runes are cut from both ends. *)
Definition asciiSpace (c : ascii) : bool :=
  in_range 9 13 c || (byte_of c =? 32).

(** The UTF-8 encodings of the White_Space runes above U+007F. *)
Definition isSpace2 (a b : Z) : bool :=
  (a =? 194) && ((b =? 133) || (b =? 160)).
Definition isSpace3 (a b c : Z) : bool :=
  ((a =? 225) && (b =? 154) && (c =? 128))
  || ((a =? 226) && (b =? 128)
      && (((128 <=? c) && (c <=? 138)) || (c =? 168) || (c =? 169) || (c =? 175)))
  || ((a =? 226) && (b =? 129) && (c =? 159))
  || ((a =? 227) && (b =? 128) && (c =? 128)).

Fixpoint trimLeft (l : list ascii) : list ascii :=
  match l with
  | [] => []
  | a :: l1 =>
      if asciiSpace a then trimLeft l1
      else match l1 with
           | b :: l2 =>
               if isSpace2 (byte_of a) (byte_of b) then trimLeft l2
               else match l2 with
                    | c :: l3 =>
                        if isSpace3 (byte_of a) (byte_of b) (byte_of c)
                        then trimLeft l3 else l
                    | [] => l
                    end
           | [] => l
           end
  end.

(** The same on the reversed string: the last rune's bytes come first, in
    reverse. *)
Fixpoint trimLeftRev (l : list ascii) : list ascii :=
  match l with
  | [] => []
  | a :: l1 =>
      if asciiSpace a then trimLeftRev l1
      else match l1 with
           | b :: l2 =>
               if isSpace2 (byte_of b) (byte_of a) then trimLeftRev l2
               else match l2 with
                    | c :: l3 =>
                        if isSpace3 (byte_of c) (byte_of b) (byte_of a)
                        then trimLeftRev l3 else l
                    | [] => l
                    end
           | [] => l
           end
  end.

Definition TrimSpace (s : string) : string :=
  str (rev (trimLeftRev (rev (trimLeft (chars s))))).

Definition len (s : string) : Z := Z.of_nat (String.length s).

(** ** Errors and outcomes *)

Inductive error :=
| errVIsNil                                  (* errors.New("v is nil") *)
| errDecodeNil                               (* "cannot decode to nil value" *)
| errNonStruct                               (* "cannot decode non struct type" *)
| ErrNotPointer
| ErrNoDN
| ErrUnsupportedDNType (typeName : string)   (* "%w: %s" *)
| ErrUnsupportedType (attrName : string)     (* "%w for %s" *)
| NumError (func num : string) (rangeErr : bool)   (* *strconv.NumError *)
| UserError (msg : string).                  (* returned by a method of the record's type *)

Inductive result (A : Type) :=
| Ok (a : A)
| Err (e : error)
| Panic.
Arguments Ok {A} a.
Arguments Err {A} e.
Arguments Panic {A}.

Definition bind {A B} (r : result A) (k : A -> result B) : result B :=
  match r with
  | Ok a => k a
  | Err e => Err e
  | Panic => Panic
  end.

(** ** Entries (the attribute container of the surrounding package) *)

Record EntryAttribute := {
  Name : string;
  Values : list string;
  ByteValues : list string
}.

Record Entry := {
  DN : string;
  Attributes : list EntryAttribute
}.

(** Modelled from the spec: [NewEntryAttribute] lives in the package's
    search code, which is not among the sources; an attribute is "a name plus
    two parallel multi-valued collections, text values and raw byte values,
    representing the same values in two representations". *)
Definition NewEntryAttribute (name : string) (values : list string) : EntryAttribute :=
  {| Name := name; Values := values; ByteValues := values |}.

Definition emptyAttr (name : string) : EntryAttribute :=
  {| Name := name; Values := []; ByteValues := [] |}.

(** ** Values and types, as reflection sees them *)

Inductive value :=
| VBool (b : bool)
| VInt (n : Z)
| VUint (n : Z)
| VFloat (bits : Z)
| VString (s : string)
| VNilSlice
| VSlice (xs : list value)
| VNilPtr
| VPtr (x : value)
| VStruct (fs : list value)
| VTime (sec nsec : Z)          (* a UTC time.Time: Unix seconds, nanoseconds *)
| VOther (zero : bool).         (* map, chan, func, array, complex: zero or not *)

Inductive intSize := I0 | I8 | I16 | I32 | I64.

Definition bits (s : intSize) : Z :=
  match s with I0 => 64 | I8 => 8 | I16 => 16 | I32 => 32 | I64 => 64 end.

Inductive recv := ByValue | ByPointer.

(** The methods of a defined type the package looks for. A method is a
    function of its receiver's variable: [Decode] and [UnmarshalLDAP] return
    the variable as they leave it. *)
Record methods := {
  mEncode : option (recv * (value -> string + error));
  mDecode : option (recv * (value -> string -> value * option error));
  mMarshalLDAP : option (recv * (value -> result Entry));
  mUnmarshalLDAP : option (recv * (Entry -> value -> value * option error));
  (** [UnmarshalLDAP() error], the interface of the earlier [marshal.go] *)
  mUnmarshalLDAP0 : option (recv * (value -> value * option error))
}.

Definition noMethods : methods :=
  {| mEncode := None; mDecode := None; mMarshalLDAP := None; mUnmarshalLDAP := None;
     mUnmarshalLDAP0 := None |}.

Record StructField (T : Type) := {
  fName : string;
  fTag : option string;       (* sf.Tag.Lookup("ldap") *)
  fAnonymous : bool;
  fType : T
}.
Arguments fName {T} _.
Arguments fTag {T} _.
Arguments fAnonymous {T} _.
Arguments fType {T} _.
Arguments Build_StructField {T} _ _ _ _.

Inductive rtype :=
| TBool
| TInt (s : intSize)
| TUint (s : intSize)
| TFloat (is32 : bool)
| TString
| TSlice (elem : rtype)
| TPtr (elem : rtype)
| TStruct (fields : list (StructField rtype))
| TTime                                          (* time.Time *)
| TNamed (name : string) (ms : methods) (under : rtype)   (* a defined type *)
| TOther (name : string).

Inductive Kind :=
| Bool | Int (s : intSize) | Uint (s : intSize) | Float (is32 : bool)
| String_ | Slice | Ptr | Struct | OtherKind.

Fixpoint kind (t : rtype) : Kind :=
  match t with
  | TBool => Bool
  | TInt s => Int s
  | TUint s => Uint s
  | TFloat b => Float b
  | TString => String_
  | TSlice _ => Slice
  | TPtr _ => Ptr
  | TStruct _ => Struct
  | TTime => Struct
  | TNamed _ _ u => kind u
  | TOther _ => OtherKind
  end.

Definition isPtr (t : rtype) : bool :=
  match kind t with Ptr => true | _ => false end.
Definition isSlice (t : rtype) : bool :=
  match kind t with Slice => true | _ => false end.

(** [t.Elem()] of a pointer or slice type. *)
Fixpoint elemOf (t : rtype) : rtype :=
  match t with
  | TSlice e => e
  | TPtr e => e
  | TNamed _ _ u => elemOf u
  | _ => t
  end.

(** [t.Name()]. *)
Definition intName (s : intSize) : string :=
  match s with I0 => "int" | I8 => "int8" | I16 => "int16" | I32 => "int32" | I64 => "int64" end.

Definition typeName (t : rtype) : string :=
  match t with
  | TBool => "bool"
  | TInt s => intName s
  | TUint s => "u" ++ intName s
  | TFloat b => if b then "float32" else "float64"
  | TString => "string"
  | TSlice _ | TPtr _ | TStruct _ => ""
  | TTime => "Time"
  | TNamed n _ _ => n
  | TOther n => n
  end.

(** The zero time: January 1, year 1, UTC. *)
Definition zeroTimeSec : Z := -62135596800.

Fixpoint IsZero (v : value) : bool :=
  match v with
  | VBool b => negb b
  | VInt n => n =? 0
  | VUint n => n =? 0
  | VFloat b => b =? 0
  | VString s => (s =? "")%string
  | VNilSlice => true
  | VSlice _ => false
  | VNilPtr => true
  | VPtr _ => false
  | VStruct fs => forallb IsZero fs
  | VTime s n => (s =? zeroTimeSec) && (n =? 0)
  | VOther z => z
  end.

(** [reflect.Zero(t)] / the variable [reflect.New(t)] points at. *)
Fixpoint zero (t : rtype) : value :=
  match t with
  | TBool => VBool false
  | TInt _ => VInt 0
  | TUint _ => VUint 0
  | TFloat _ => VFloat 0
  | TString => VString ""
  | TSlice _ => VNilSlice
  | TPtr _ => VNilPtr
  | TStruct fs => VStruct (map (fun f => zero (fType f)) fs)
  | TTime => VTime zeroTimeSec 0
  | TNamed _ _ u => zero u
  | TOther _ => VOther true
  end.

(** The type is exactly the predeclared [[]byte]. *)
Definition isByteSlice (t : rtype) : bool :=
  match t with TSlice (TUint I8) => true | _ => false end.

(** [string(b)] and [[]byte(s)]. *)
Definition byteOfValue (v : value) : ascii :=
  match v with VUint n => ascii_of_Z n | _ => Ascii.zero end.

Definition stringOfBytes (v : value) : string :=
  match v with
  | VSlice xs => str (map byteOfValue xs)
  | _ => ""
  end.

Definition bytesOfString (s : string) : value :=
  VSlice (map (fun c => VUint (byte_of c)) (chars s)).

(** An [interface{}] argument: nil, or a value with its dynamic type. *)
Definition iface := option (rtype * value).

(** ** marshal.go: the tag resolver and the structural identity check *)

Record info := {
  attrName : string;
  ignored : bool;
  omitempty : bool;
  readOnly : bool
}.

(** [sf.Name[1:]] after [sf.Name[0]]; a field name is never empty. *)
Definition defaultName (L : Libs) (name : string) : string :=
  let n := match name with
           | String c rest => lowerRune c ++ rest
           | EmptyString => ""
           end in
  if len n =? 2 then ToLower L n else n.

Definition hasToken (tok : string) (parts : list string) : bool :=
  existsb (fun v => (TrimSpace v =? tok)%string) parts.

Definition parseTag (L : Libs) (sf : StructField rtype) : info :=
  let fi := {| attrName := defaultName L (fName sf); ignored := false;
               omitempty := false; readOnly := false |} in
  match fTag sf with
  | None => fi
  | Some t =>
      match Split t with
      | [] => fi
      | p0 :: _ as parts =>
          if (TrimSpace p0 =? "-")%string then
            {| attrName := attrName fi; ignored := true;
               omitempty := false; readOnly := false |}
          else
            {| attrName := p0; ignored := false;
               omitempty := hasToken "omitempty" parts;
               readOnly := hasToken "ro" parts |}
      end
  end.

(** [hasDN]: pointers are followed in the value, fields are read from the
    type. The comparison with ["dn"] is the plain [==] of the source. *)
Fixpoint hasDN (L : Libs) (t : rtype) (v : value) {struct t} : bool :=
  match t with
  | TNamed _ _ u => hasDN L u v
  | TPtr e =>
      match v with
      | VPtr x => hasDN L e x
      | _ => false
      end
  | TStruct fs =>
      match v with
      | VStruct vs =>
          (fix fields (fs : list (StructField rtype)) (vs : list value) : bool :=
             match fs, vs with
             | f :: fs', fv :: vs' =>
                 if (attrName (parseTag L f) =? "dn")%string then true
                 else if fAnonymous f
                         && match f with
                            | Build_StructField _ _ _ ft => hasDN L ft fv
                            end
                      then true
                      else fields fs' vs'
             | _, _ => false
             end) fs vs
      | _ => false
      end
  | _ => false
  end.



(** ** strconv and fmt on integers *)

(** [fmt.Sprintf("%d", n)]. *)
Definition formatInt (n : Z) : string := NilEmpty.string_of_int (Z.to_int n).

(** One or more decimal digits. *)
Definition parseDigits (s : string) : option Z :=
  match s with
  | EmptyString => None
  | _ => option_map Z.of_uint (NilEmpty.uint_of_string s)
  end.

(** [strconv.ParseUint(a, 10, 64)]. *)
Definition ParseUint (a : string) : result Z :=
  match parseDigits a with
  | Some n => if n <? 2 ^ 64 then Ok n else Err (NumError "ParseUint" a true)
  | None => Err (NumError "ParseUint" a false)
  end.

(** [strconv.ParseInt(a, 10, 64)], under the name of the caller. *)
Definition parseSigned (fn a : string) : result Z :=
  let signed :=
    match a with
    | String c rest =>
        if (c =? "+")%char then option_map (fun n => n) (parseDigits rest)
        else if (c =? "-")%char then option_map Z.opp (parseDigits rest)
        else parseDigits a
    | EmptyString => None
    end in
  match signed with
  | Some n =>
      if (- 2 ^ 63 <=? n) && (n <? 2 ^ 63) then Ok n
      else Err (NumError fn a true)
  | None => Err (NumError fn a false)
  end.

Definition ParseInt (a : string) : result Z := parseSigned "ParseInt" a.
Definition Atoi (a : string) : result Z := parseSigned "Atoi" a.

(** Conversion to a [w]-bit integer, as [SetInt] and [SetUint] store it. *)
Definition wrapU (w n : Z) : Z := n mod 2 ^ w.
Definition wrapS (w n : Z) : Z := (n + 2 ^ (w - 1)) mod 2 ^ w - 2 ^ (w - 1).

(** ** What reflection reads off a value *)

Definition IsNil (v : value) : bool :=
  match v with VNilPtr | VNilSlice => true | _ => false end.

Definition stringOf (v : value) : string :=
  match v with VString s => s | _ => "" end.
Definition intOf (v : value) : Z :=
  match v with VInt n | VUint n | VFloat n => n | _ => 0 end.
Definition boolOf (v : value) : bool :=
  match v with VBool b => b | _ => false end.

(** [NumField] and [Field(i)] exist for the struct kind only. *)
Fixpoint structFields (t : rtype) : option (list (StructField rtype)) :=
  match t with
  | TStruct fs => Some fs
  | TNamed _ _ u => structFields u
  | _ => None
  end.

(** Whether Go exports the identifier (reflection refuses [Interface] and
    [Set] on a value reached through a field that is not). *)
Definition exported (L : Libs) (name : string) : bool :=
  match name with
  | String c _ => if isASCIIbyte c then in_range 65 90 c else exportedNonASCII L name
  | EmptyString => false
  end.

(** The source's own test, [unicode.IsUpper(rune(ft.Name[0]))]. *)
Definition upperFirst (name : string) : bool :=
  match name with
  | String c _ => IsUpper c
  | EmptyString => false
  end.

(** [for rv.Kind() == reflect.Ptr { rv = rv.Elem() }]: [None] is the invalid
    value a nil pointer's [Elem] gives; the flag tells whether a pointer was
    followed (the result is then addressable). *)
Fixpoint derefAll (t : rtype) (v : value) (addr : bool) {struct v}
  : option (rtype * value * bool) :=
  match v with
  | VPtr x => if isPtr t then derefAll (elemOf t) x true else Some (t, v, addr)
  | _ => if isPtr t then None else Some (t, v, addr)
  end.

Definition isStruct (t : rtype) : bool :=
  match kind t with Struct => true | _ => false end.

(** *** Method lookup: [x.(I)] succeeds when the dynamic type has the method.
    A method called on a nil pointer dereferences it. *)

Definition callOn {A} (v : value) (f : value -> A) : result A :=
  match v with
  | VPtr x => Ok (f x)
  | _ => Panic
  end.

(** [fv.Interface().(BinaryEncoder)] and the call of [Encode]. *)
Definition valueEncoder (t : rtype) (v : value) : option (result (string + error)) :=
  match t with
  | TNamed _ ms _ =>
      match mEncode ms with
      | Some (ByValue, f) => Some (Ok (f v))
      | _ => None
      end
  | TPtr (TNamed _ ms _) =>
      match mEncode ms with
      | Some (_, f) => Some (callOn v f)
      | None => None
      end
  | _ => None
  end.

(** [fv.Addr().Interface().(BinaryEncoder)]. *)
Definition addrEncoder (t : rtype) (v : value) : option (string + error) :=
  match t with
  | TNamed _ ms _ =>
      match mEncode ms with
      | Some (_, f) => Some (f v)
      | None => None
      end
  | _ => None
  end.

(** [v.(Marshaler)] and the call of [MarshalLDAP]. *)
Definition marshaler (v : rtype * value) : option (result Entry) :=
  match fst v with
  | TNamed _ ms _ =>
      match mMarshalLDAP ms with
      | Some (ByValue, f) => Some (f (snd v))
      | _ => None
      end
  | TPtr (TNamed _ ms _) =>
      match mMarshalLDAP ms with
      | Some (_, f) => Some (bind (callOn (snd v) f) (fun r => r))
      | None => None
      end
  | _ => None
  end.

(** The attribute a [BinaryEncoder] yields. *)
Definition encoded (attrName : string) (r : string + error)
  : result (option EntryAttribute * string) :=
  match r with
  | inl b => Ok (Some (NewEntryAttribute attrName [b]), "")
  | inr e => Err e
  end.

(** [attr.Values = append(attr.Values, a.Values...)] and the same for
    [ByteValues]. *)
Definition appendValues (attr a : EntryAttribute) : EntryAttribute :=
  {| Name := Name attr;
     Values := Values attr ++ Values a;
     ByteValues := ByteValues attr ++ ByteValues a |}.

Definition orEmpty (attrName : string) (attr : option EntryAttribute) : EntryAttribute :=
  match attr with
  | Some a => a
  | None => emptyAttr attrName
  end.

Definition isDN (L : Libs) (attrName : string) : bool :=
  (ToLower L attrName =? "dn")%string.

(** ** The outcome of a call that writes through its argument *)

Inductive outcome (S : Type) :=
| Return (s : S) (err : option error)     (* the variable as the call leaves it *)
| Crash.
Arguments Return {S} s err.
Arguments Crash {S}.

Definition onState {S T} (f : S -> T) (o : outcome S) : outcome T :=
  match o with
  | Return s err => Return (f s) err
  | Crash => Crash
  end.


(** [v.Interface().(BinaryDecoder)] and the call of [Decode]: a method with
    a value receiver works on a copy. *)
Definition valueDecoder (t : rtype) (v : value) (a : string) : option (outcome value) :=
  match t with
  | TNamed _ ms _ =>
      match mDecode ms with
      | Some (ByValue, f) => Some (Return v (snd (f v a)))
      | _ => None
      end
  | TPtr (TNamed _ ms _) =>
      match mDecode ms with
      | Some (r, f) =>
          Some match v with
               | VPtr x =>
                   match r with
                   | ByPointer => Return (VPtr (fst (f x a))) (snd (f x a))
                   | ByValue => Return v (snd (f x a))
                   end
               | _ => Crash
               end
      | None => None
      end
  | _ => None
  end.

(** [v.Addr().Interface().(BinaryDecoder)]. *)
Definition addrDecoder (t : rtype) (v : value) (a : string) : option (outcome value) :=
  match t with
  | TNamed _ ms _ =>
      match mDecode ms with
      | Some (_, f) => Some (Return (fst (f v a)) (snd (f v a)))
      | None => None
      end
  | _ => None
  end.

(** [v.(Unmarshaler)] and the call of [UnmarshalLDAP(e)]. *)
Definition unmarshaler (e : Entry) (t : rtype) (v : value) : option (outcome value) :=
  match t with
  | TNamed _ ms _ =>
      match mUnmarshalLDAP ms with
      | Some (ByValue, f) => Some (Return v (snd (f e v)))
      | _ => None
      end
  | TPtr (TNamed _ ms _) =>
      match mUnmarshalLDAP ms with
      | Some (r, f) =>
          Some match v with
               | VPtr x =>
                   match r with
                   | ByPointer => Return (VPtr (fst (f e x))) (snd (f e x))
                   | ByValue => Return v (snd (f e x))
                   end
               | _ => Crash
               end
      | None => None
      end
  | _ => None
  end.

(** [reflect.Append(v, e)]. *)
Definition appendValue (v e : value) : value :=
  match v with
  | VSlice xs => VSlice (xs ++ [e])
  | _ => VSlice [e]
  end.

Definition isByteKind (t : rtype) : bool :=
  match kind t with Uint I8 => true | _ => false end.

(** [getAttributeValues] (the same text in both decoders). *)
Fixpoint getAttributeValues (L : Libs) (attrs : list EntryAttribute) (attribute : string)
  : option (list string) :=
  match attrs with
  | [] => None
  | attr :: rest =>
      if (ToLower L (Name attr) =? ToLower L attribute)%string then Some (Values attr)
      else getAttributeValues L rest attribute
  end.

(** The identity branch of [encodeField] (the same text in both
    encoders): a type switch on [string] and [[]byte]. *)
Definition encodeDN (t : rtype) (v : value) : result (option EntryAttribute * string) :=
  match t with
  | TString => Ok (None, stringOf v)
  | TSlice (TUint I8) => Ok (None, stringOfBytes v)
  | _ => Err (ErrUnsupportedDNType (typeName t))
  end.

(** The loop of [encodeField] over the elements of a slice (the same text
    in both encoders); [encodeElem] is [encodeField] on one element, with
    omitEmpty set. The first attribute is taken as it is, nil or not; a
    later nil one is dereferenced. *)
Section Elems.
Variable attrName : string.
Variable encodeElem : value -> result (option EntryAttribute * string).

Fixpoint encodeElems (xs : list value) (attr : option EntryAttribute)
  : result (option EntryAttribute * string) :=
  match xs with
  | [] => Ok (Some (orEmpty attrName attr), "")
  | x :: xs' =>
      match encodeElem x with
      | Ok (a, _) =>
          match attr, a with
          | None, _ => encodeElems xs' a
          | Some at_, Some a' => encodeElems xs' (Some (appendValues at_ a'))
          | Some _, None => Panic               (* a.Values with a == nil *)
          end
      | Err e => Err e
      | Panic => Panic
      end
  end.
End Elems.

(** The end of [Encode], after the traversal returned [attrs] and [dn]. *)
Definition entryOf (r : list EntryAttribute * string) : result Entry :=
  if (snd r =? "")%string then Err ErrNoDN
  else Ok {| DN := snd r; Attributes := fst r |}.

(** ** src/v3: encode.go and decode.go *)

Module V3.

(** *** src/v3/encode.go *)

(** The cases of the type switch that name predeclared types. *)
Definition scalarText (L : Libs) (t : rtype) (v : value) : option string :=
  match t with
  | TInt _ | TUint _ => Some (formatInt (intOf v))
  | TFloat b => Some (formatFloat L b (intOf v))
  | TString => Some (stringOf v)
  | TSlice (TUint I8) => Some (stringOfBytes v)
  | _ => None
  end.

(** [ro]: the value was reached through a field Go does not export, so
    [fv.Interface()] panics. *)
Fixpoint encodeField (L : Libs) (attrName : string) (t : rtype) (fv : value)
    (omitEmpty ro : bool) {struct fv} : result (option EntryAttribute * string) :=
  if omitEmpty && IsZero fv then Ok (None, "")
  else if ro then Panic
  else if isDN L attrName then encodeDN t fv
  else
    match valueEncoder t fv with
    | Some r => bind r (encoded attrName)
    | None =>
        match scalarText L t fv with
        | Some s => Ok (Some (NewEntryAttribute attrName [s]), "")
        | None =>
            if isSlice t then
              match fv with
              | VSlice xs =>
                  encodeElems attrName
                    (fun x => encodeField L attrName (elemOf t) x true ro) xs None
              | _ => Ok (Some (emptyAttr attrName), "")
              end
            else if isPtr t then
              match fv with
              | VPtr x => encodeField L attrName (elemOf t) x omitEmpty ro
              | _ => Panic                               (* Elem of a nil pointer *)
              end
            else Err (ErrUnsupportedType attrName)
        end
    end.

Section Fields.
Variable L : Libs.
(** [encodeStructFields] on an embedded struct. *)
Variable embedded : rtype -> value -> bool -> result (list EntryAttribute * string).

(** The loop of [encodeStructFields] from field [i] on, with the named
    results [attrs] and [dn] as they stand. [ro]: the struct itself was
    reached through a field that is not exported. *)
Fixpoint encodeFields (fs : list (StructField rtype)) (vs : list value) (ro : bool)
    (attrs : list EntryAttribute) (dn : string) {struct vs}
  : result (list EntryAttribute * string) :=
  match fs, vs with
  | ft :: fs', fv :: vs' =>
      let info := parseTag L ft in
      if ignored info then encodeFields fs' vs' ro attrs dn
      else if IsZero fv && negb (isDN L (attrName info)) && omitempty info
      then encodeFields fs' vs' ro attrs dn
      else if isPtr (fType ft) && IsNil fv
      then encodeFields fs' vs' ro (attrs ++ [emptyAttr (attrName info)]) dn
      else if fAnonymous ft then
        match embedded (fType ft) fv ro with
        | Ok (as_, d) =>
            encodeFields fs' vs' ro (attrs ++ as_) (if (d =? "")%string then dn else d)
        | Err e => Err e
        | Panic => Panic
        end
      else
        match encodeField L (attrName info) (fType ft) fv (omitempty info)
                (ro || negb (exported L (fName ft))) with
        | Ok (attr, d) =>
            if negb (d =? "")%string then encodeFields fs' vs' ro attrs d
            else encodeFields fs' vs' ro (attrs ++ [orEmpty (attrName info) attr]) dn
        | Err e => Err e
        | Panic => Panic
        end
  | _, _ => Ok (attrs, dn)
  end.
End Fields.

(** [v.NumField()] panics unless the kind is struct; the three fields of a
    [time.Time] are not exported and the first has no tag, so the loop
    panics in [encodeField] on [fv.Interface()]. *)
Fixpoint encodeStructFields (L : Libs) (t : rtype) (v : value) (ro : bool) {struct v}
  : result (list EntryAttribute * string) :=
  match v with
  | VStruct vs =>
      match structFields t with
      | Some fs => encodeFields L (encodeStructFields L) fs vs ro [] ""
      | None => Panic
      end
  | _ => Panic
  end.

Definition Encode (L : Libs) (v : iface) : result Entry :=
  match v with
  | None => Err errVIsNil
  | Some (t, x) =>
      match marshaler (t, x) with
      | Some r => r
      | None =>
          match derefAll t x false with
          | Some (rt, rv, _) =>
              if isStruct rt then
                bind (encodeStructFields L rt rv false) entryOf
              else Err errNonStruct
          | None => Err errNonStruct
          end
      end
  end.


(** *** src/v3/decode.go *)

Record decoder := { useInterface : bool }.

Definition decodeTime (L : Libs) (s : string) : value :=
  match parseLayout L s with
  | Some (sec, nsec) => VTime sec nsec
  | None => VTime zeroTimeSec 0
  end.

Definition atoi (s : string) : Z :=
  match Atoi s with Ok i => i | _ => 0 end.

Definition decodeDateTime (t : string) : value :=
  let nsec := atoi t in
  let nsec := wrapS 64 (nsec - 116444736000000000) in
  let nsec := wrapS 64 (nsec * 100) in
  VTime (nsec / 1000000000) 0.

Definition isOk {A} (r : result A) : bool :=
  match r with Ok _ => true | _ => false end.

(** [setValue] but for the final recursion into a pointer's variable, which
    is [elem]. [ro]: the value was reached through a field Go does not
    export, so [Set] and [Interface] panic. *)
Definition setValueBody (L : Libs) (elem : value -> outcome value)
    (t : rtype) (v : value) (a : string) (ro : bool) : outcome value :=
  if ro then Crash
  else
    let v := if IsZero v && isPtr t then VPtr (zero (elemOf t)) else v in
    match valueDecoder t v a with
    | Some o => o
    | None =>
        match addrDecoder t v a with
        | Some o => o
        | None =>
            match kind t with
            | Int s =>
                match ParseInt a with
                | Ok i => Return (VInt (wrapS (bits s) i)) None
                | Err e => Return v (Some e)
                | Panic => Crash
                end
            | Uint s =>
                match ParseUint a with
                | Ok i => Return (VUint (wrapU (bits s) i)) None
                | Err e => Return v (Some e)
                | Panic => Crash
                end
            | Float b =>
                match ParseFloat L a with
                | inl f => Return (VFloat (if b then roundFloat32 L f else f)) None
                | inr r => Return v (Some (NumError "ParseFloat" a r))
                end
            | String_ => Return (VString a) None
            | Bool => Return (VBool (ToUpper L a =? "TRUE")%string) None
            | Slice => Return (if isByteSlice t then bytesOfString a else v) None
            | Struct =>
                match t with
                | TTime =>
                    Return (if isOk (Atoi a) then decodeDateTime a else decodeTime L a) None
                | _ => Return v None
                end
            | Ptr =>
                match v with
                | VPtr x => onState VPtr (elem x)
                | _ => Crash
                end
            | OtherKind => Return v None
            end
        end
    end.

(** The third argument of [TNamed] is an underlying type, never itself a
    defined type. *)
Fixpoint setValue (L : Libs) (t : rtype) (v : value) (a : string) (ro : bool)
    {struct t} : outcome value :=
  setValueBody L
    (fun x =>
       match t with
       | TPtr e | TNamed _ _ (TPtr e) => setValue L e x a false
       | _ => Crash
       end) t v a ro.

(** The [range vals] loop of [decodeStructField]; [v.Set] panics on a value
    reached through a field that is not exported. *)
Fixpoint appendDecoded (L : Libs) (et : rtype) (v : value) (vals : list string) (ro : bool)
  : outcome value :=
  match vals with
  | [] => Return v None
  | va :: rest =>
      match setValue L et (zero et) va false with
      | Return e None => if ro then Crash else appendDecoded L et (appendValue v e) rest ro
      | Return _ (Some err) => Return v (Some err)
      | Crash => Crash
      end
  end.

Definition decodeStructField (L : Libs) (t : rtype) (v : value) (vals : list string)
    (ro : bool) : outcome value :=
  if isSlice t then
    if isByteKind (elemOf t) then
      match vals with
      | va :: _ => setValue L t v va ro
      | [] => Return v None
      end
    else appendDecoded L (elemOf t) v vals ro
  else
    match vals with
    | [] => Return v None
    | va :: _ => setValue L t v va ro
    end.

Section Fields.
Variable L : Libs.
Variable e : Entry.
(** [decodeStruct] on an embedded field. *)
Variable embedded : rtype -> value -> bool -> outcome value.

(** What one iteration does to the field. *)
Definition decodeOne (ft : StructField rtype) (fv : value) (ro : bool) : outcome value :=
  if negb (upperFirst (fName ft)) then Return fv None
  else
    let info := parseTag L ft in
    if ignored info then Return fv None
    else if fAnonymous ft then embedded (fType ft) fv ro
    else
      let fro := ro || negb (exported L (fName ft)) in
      if isDN L (attrName info) then setValue L (fType ft) fv (DN e) fro
      else
        match getAttributeValues L (Attributes e) (attrName info) with
        | None => Return fv None
        | Some vals => decodeStructField L (fType ft) fv vals fro
        end.
End Fields.

(** The loop of [decodeStruct]: the fields as the call leaves them. *)
Fixpoint decodeFields (L : Libs) (e : Entry)
    (embedded : rtype -> value -> bool -> outcome value)
    (fs : list (StructField rtype)) (vs : list value) (ro : bool) {struct fs}
  : outcome (list value) :=
  match fs, vs with
  | ft :: fs', fv :: vs' =>
      match decodeOne L e embedded ft fv ro with
      | Return fv' None => onState (cons fv') (decodeFields L e embedded fs' vs' ro)
      | Return fv' (Some err) => Return (fv' :: vs') (Some err)
      | Crash => Crash
      end
  | _, _ => Return vs None
  end.

(** [v.NumField()] panics unless the kind is struct; none of the three
    fields of a [time.Time] passes the visibility check. *)
Fixpoint decodeStruct (L : Libs) (e : Entry) (t : rtype) (v : value) (ro : bool)
    {struct t} : outcome value :=
  match t with
  | TStruct fs =>
      match v with
      | VStruct vs =>
          onState VStruct (decodeFields L e (decodeStruct L e) fs vs ro)
      | _ => Crash
      end
  | TNamed _ _ u => decodeStruct L e u v ro
  | TTime => Return v None
  | _ => Crash
  end.

(** [Decode]: the argument as the call leaves it, and the error. *)
Definition Decode (L : Libs) (d : decoder) (e : Entry) (v : iface) : outcome iface :=
  match v with
  | None => Return None (Some errDecodeNil)
  | Some (t, x) =>
      match (if useInterface d then unmarshaler e t x else None) with
      | Some o => onState (fun x' => Some (t, x')) o
      | None =>
          if negb (isPtr t) then Return v (Some ErrNotPointer)
          else
            match x with
            | VPtr rv =>
                if negb (isStruct (elemOf t)) then Return v (Some errNonStruct)
                else if negb (hasDN L (elemOf t) rv) then Return v (Some ErrNoDN)
                else onState (fun rv' => Some (t, VPtr rv')) (decodeStruct L e (elemOf t) rv false)
            | _ => Return v (Some errNonStruct)
            end
      end
  end.

End V3.

(** ** The other copies of [encode.go] and [decode.go]: the encoder with
    the visibility check, the decoder bound to one entry *)

Module Root.

(** *** The encoder with the visibility check and the read-only tag *)

Record encoder := { useInterface : bool }.

Definition scalarText (L : Libs) (t : rtype) (v : value) : option string :=
  match t with
  | TInt _ | TUint _ => Some (formatInt (intOf v))
  | TFloat b => Some (formatFloat L b (intOf v))
  | TString => Some (stringOf v)
  | TSlice (TUint I8) => Some (stringOfBytes v)
  | TBool => Some (if boolOf v then "TRUE" else "FALSE")
  | _ => None
  end.

(** [addr]: the value is addressable, so [fv.Addr()] does not panic. *)
Fixpoint encodeField (L : Libs) (attrName : string) (t : rtype) (fv : value)
    (omitEmpty ro addr : bool) {struct fv} : result (option EntryAttribute * string) :=
  if omitEmpty && IsZero fv then Ok (None, "")
  else if ro then Panic
  else if isDN L attrName then encodeDN t fv
  else
    match valueEncoder t fv with
    | Some r => bind r (encoded attrName)
    | None =>
        match scalarText L t fv with
        | Some s => Ok (Some (NewEntryAttribute attrName [s]), "")
        | None =>
            if negb addr then Panic
            else
              match addrEncoder t fv with
              | Some r => encoded attrName r
              | None =>
                  if isSlice t then
                    match fv with
                    | VSlice xs =>
                        encodeElems attrName
                          (fun x => encodeField L attrName (elemOf t) x true ro true) xs None
                    | _ => Ok (Some (emptyAttr attrName), "")
                    end
                  else if isPtr t then
                    match fv with
                    | VPtr x => encodeField L attrName (elemOf t) x omitEmpty ro true
                    | _ => Panic
                    end
                  else Err (ErrUnsupportedType attrName)
              end
        end
    end.

Section Fields.
Variable L : Libs.
Variable embedded : rtype -> value -> bool -> bool -> result (list EntryAttribute * string).

Fixpoint encodeFields (fs : list (StructField rtype)) (vs : list value) (ro addr : bool)
    (attrs : list EntryAttribute) (dn : string) {struct vs}
  : result (list EntryAttribute * string) :=
  match fs, vs with
  | ft :: fs', fv :: vs' =>
      if negb (upperFirst (fName ft)) then encodeFields fs' vs' ro addr attrs dn
      else
      let info := parseTag L ft in
      if ignored info || readOnly info then encodeFields fs' vs' ro addr attrs dn
      else if IsZero fv && negb (isDN L (attrName info)) && omitempty info
      then encodeFields fs' vs' ro addr attrs dn
      else if isPtr (fType ft) && IsNil fv
      then encodeFields fs' vs' ro addr (attrs ++ [emptyAttr (attrName info)]) dn
      else if fAnonymous ft then
        match embedded (fType ft) fv ro addr with
        | Ok (as_, d) =>
            encodeFields fs' vs' ro addr (attrs ++ as_) (if (d =? "")%string then dn else d)
        | Err e => Err e
        | Panic => Panic
        end
      else
        match encodeField L (attrName info) (fType ft) fv (omitempty info)
                (ro || negb (exported L (fName ft))) addr with
        | Ok (attr, d) =>
            if negb (d =? "")%string then encodeFields fs' vs' ro addr attrs d
            else encodeFields fs' vs' ro addr (attrs ++ [orEmpty (attrName info) attr]) dn
        | Err e => Err e
        | Panic => Panic
        end
  | _, _ => Ok (attrs, dn)
  end.
End Fields.

(** None of the three fields of a [time.Time] passes the visibility
    check. *)
Fixpoint encodeStructFields (L : Libs) (t : rtype) (v : value) (ro addr : bool) {struct v}
  : result (list EntryAttribute * string) :=
  match v with
  | VStruct vs =>
      match structFields t with
      | Some fs => encodeFields L (encodeStructFields L) fs vs ro addr [] ""
      | None => Panic
      end
  | VTime _ _ => Ok ([], "")
  | _ => Panic
  end.

Definition Encode (L : Libs) (e : encoder) (v : iface) : result Entry :=
  match v with
  | None => Err errVIsNil
  | Some (t, x) =>
      match (if useInterface e then marshaler (t, x) else None) with
      | Some r => r
      | None =>
          match derefAll t x false with
          | Some (rt, rv, addr) =>
              if isStruct rt then
                bind (encodeStructFields L rt rv false addr) entryOf
              else Err errNonStruct
          | None => Err errNonStruct
          end
      end
  end.

(** *** The decoder bound to one entry *)

Record decoder := { e : Entry }.

(** [v.(Unmarshaler)] and the call of [UnmarshalLDAP()]. *)
Definition unmarshaler (t : rtype) (v : value) : option (outcome value) :=
  match t with
  | TNamed _ ms _ =>
      match mUnmarshalLDAP0 ms with
      | Some (ByValue, f) => Some (Return v (snd (f v)))
      | _ => None
      end
  | TPtr (TNamed _ ms _) =>
      match mUnmarshalLDAP0 ms with
      | Some (r, f) =>
          Some match v with
               | VPtr x =>
                   match r with
                   | ByPointer => Return (VPtr (fst (f x))) (snd (f x))
                   | ByValue => Return v (snd (f x))
                   end
               | _ => Crash
               end
      | None => None
      end
  | _ => None
  end.

Definition setValueBody (L : Libs) (elem : value -> outcome value)
    (t : rtype) (v : value) (a : string) (ro : bool) : outcome value :=
  if ro then Crash
  else
    let v := if IsZero v && isPtr t then VPtr (zero (elemOf t)) else v in
    match valueDecoder t v a with
    | Some o => o
    | None =>
        match kind t with
        | Int s =>
            match ParseInt a with
            | Ok i => Return (VInt (wrapS (bits s) i)) None
            | Err e => Return v (Some e)
            | Panic => Crash
            end
        | Uint s =>
            match ParseUint a with
            | Ok i => Return (VUint (wrapU (bits s) i)) None
            | Err e => Return v (Some e)
            | Panic => Crash
            end
        | Float b =>
            match ParseFloat L a with
            | inl f => Return (VFloat (if b then roundFloat32 L f else f)) None
            | inr r => Return v (Some (NumError "ParseFloat" a r))
            end
        | String_ => Return (VString a) None
        | Slice => Return (if isByteSlice t then bytesOfString a else v) None
        | Ptr =>
            match v with
            | VPtr x => onState VPtr (elem x)
            | _ => Crash
            end
        | Bool | Struct | OtherKind => Return v None
        end
    end.

Fixpoint setValue (L : Libs) (t : rtype) (v : value) (a : string) (ro : bool)
    {struct t} : outcome value :=
  setValueBody L
    (fun x =>
       match t with
       | TPtr e | TNamed _ _ (TPtr e) => setValue L e x a false
       | _ => Crash
       end) t v a ro.

Fixpoint appendDecoded (L : Libs) (et : rtype) (v : value) (vals : list string) (ro : bool)
  : outcome value :=
  match vals with
  | [] => Return v None
  | va :: rest =>
      match setValue L et (zero et) va false with
      | Return e None => if ro then Crash else appendDecoded L et (appendValue v e) rest ro
      | Return _ (Some err) => Return v (Some err)
      | Crash => Crash
      end
  end.

Definition decodeStructField (L : Libs) (t : rtype) (v : value) (vals : list string)
    (ro : bool) : outcome value :=
  if isSlice t then
    if isByteKind (elemOf t) then
      match vals with
      | va :: _ => setValue L t v va ro
      | [] => Return v None
      end
    else appendDecoded L (elemOf t) v vals ro
  else
    match vals with
    | [] => Return v None
    | va :: _ => setValue L t v va ro
    end.

(** One iteration of [decodeStruct]: no visibility check here. *)
Definition decodeOne (L : Libs) (e : Entry)
    (embedded : rtype -> value -> bool -> outcome value)
    (ft : StructField rtype) (fv : value) (ro : bool) : outcome value :=
  let info := parseTag L ft in
  if ignored info then Return fv None
  else if fAnonymous ft then embedded (fType ft) fv ro
  else
    let fro := ro || negb (exported L (fName ft)) in
    if isDN L (attrName info) then setValue L (fType ft) fv (DN e) fro
    else
      match getAttributeValues L (Attributes e) (attrName info) with
      | None => Return fv None
      | Some vals => decodeStructField L (fType ft) fv vals fro
      end.

Fixpoint decodeFields (L : Libs) (e : Entry)
    (embedded : rtype -> value -> bool -> outcome value)
    (fs : list (StructField rtype)) (vs : list value) (ro : bool) {struct fs}
  : outcome (list value) :=
  match fs, vs with
  | ft :: fs', fv :: vs' =>
      match decodeOne L e embedded ft fv ro with
      | Return fv' None => onState (cons fv') (decodeFields L e embedded fs' vs' ro)
      | Return fv' (Some err) => Return (fv' :: vs') (Some err)
      | Crash => Crash
      end
  | _, _ => Return vs None
  end.

(** The fields [wall], [ext] and [loc] of a [time.Time] are not exported:
    a value found for one of them ends in [setValue] on a read-only value. *)
Definition timeFieldHit (L : Libs) (e : Entry) : bool :=
  existsb (fun n => match getAttributeValues L (Attributes e) n with
                    | Some (_ :: _) => true
                    | _ => false
                    end) ["wall"; "ext"; "loc"].

Fixpoint decodeStruct (L : Libs) (e : Entry) (t : rtype) (v : value) (ro : bool)
    {struct t} : outcome value :=
  match t with
  | TStruct fs =>
      match v with
      | VStruct vs => onState VStruct (decodeFields L e (decodeStruct L e) fs vs ro)
      | _ => Crash
      end
  | TNamed _ _ u => decodeStruct L e u v ro
  | TTime => if timeFieldHit L e then Crash else Return v None
  | _ => Crash
  end.

Definition Decode (L : Libs) (d : decoder) (v : iface) : outcome iface :=
  match v with
  | None => Return None (Some errDecodeNil)
  | Some (t, x) =>
      match unmarshaler t x with
      | Some o => onState (fun x' => Some (t, x')) o
      | None =>
          if negb (isPtr t) then Return v (Some ErrNotPointer)
          else
            match x with
            | VPtr rv =>
                if negb (isStruct (elemOf t)) then Return v (Some errNonStruct)
                else if negb (hasDN L (elemOf t) rv) then Return v (Some ErrNoDN)
                else onState (fun rv' => Some (t, VPtr rv'))
                       (decodeStruct L (e d) (elemOf t) rv false)
            | _ => Return v (Some errNonStruct)
            end
      end
  end.

End Root.

(** ** marshal.go: the entry points *)

(** The later [marshal.go]: shared instances that honour [MarshalLDAP] and
    [UnmarshalLDAP]; they are the encoder with [useInterface] and the
    decoder of src/v3. *)
Definition DefaultEncoder : Root.encoder := {| Root.useInterface := true |}.
Definition DefaultDecoder : V3.decoder := {| V3.useInterface := true |}.

Definition Marshal (L : Libs) (v : iface) : result Entry :=
  Root.Encode L DefaultEncoder v.
Definition Unmarshal (L : Libs) (e : Entry) (v : iface) : outcome iface :=
  V3.Decode L DefaultDecoder e v.


(** ** Sample inputs: the types of the package's test file *)

(** Library functions for inputs that are ASCII and hold no float or time:
    none of the fields is consulted on them. *)
Definition asciiLibs : Libs :=
  {| lowerNonASCII := fun s => s;
     upperNonASCII := fun s => s;
     exportedNonASCII := fun _ => false;
     formatFloat := fun _ _ => "";
     ParseFloat := fun _ => inr false;
     roundFloat32 := fun b => b;
     parseLayout := fun _ => None |}.

Definition field (name : string) (tag : option string) (t : rtype) : StructField rtype :=
  Build_StructField name tag false t.
Definition embed (name : string) (t : rtype) : StructField rtype :=
  Build_StructField name None true t.

Definition TypeNoDN : rtype :=
  TNamed "TypeNoDN" noMethods (TStruct [field "String" (Some "string") TString]).
Definition TypeEmbed : rtype :=
  TNamed "TypeEmbed" noMethods
    (TStruct [field "DN" None TString; embed "TypeNoDN" TypeNoDN]).
Definition TypeTags : rtype :=
  TNamed "TypeTags" noMethods
    (TStruct [field "DN" (Some "dn") TString;
              field "DistinguishedName" (Some "-") TString;
              field "Alpha" (Some "beta") TString]).

Definition dn : string := "cn=users,dc=example,dc=com".

(** [binaryEncoder] of the test file: both methods have pointer
    receivers. *)
Definition binaryEncoder : rtype :=
  TNamed "binaryEncoder"
    {| mEncode := Some (ByPointer, fun v =>
         match v with
         | VStruct [VBool true; _] => inr (UserError "err")
         | VStruct [_; VString s] => inl s
         | _ => inl ""
         end);
       mDecode := Some (ByPointer, fun v a =>
         match v with
         | VStruct [VBool true; _] => (v, Some (UserError "err"))
         | VStruct [w; _] => (VStruct [w; VString a], None)
         | _ => (v, None)
         end);
       mMarshalLDAP := None;
       mUnmarshalLDAP := None;
       mUnmarshalLDAP0 := None |}
    (TStruct [field "wantErr" None TBool; field "Value" None TString]).

Definition TypesAll : rtype :=
  TNamed "TypesAll" noMethods
    (TStruct [field "DN" None TString;
              field "Int16" (Some "itIsAnInt16") (TInt I16);
              field "IntZero" (Some "intZero, omitempty") (TInt I0);
              field "FloatPtr" None (TPtr (TFloat false));
              field "Uint8" None (TUint I8);
              field "StringPtr" None (TPtr TString);
              field "StringSlice" None (TSlice TString);
              field "Raw" (Some "singleRaw") (TSlice (TUint I8));
              field "RawSlice" (Some "multiRaw,omitempty") (TSlice (TSlice (TUint I8)));
              field "RawSlice2" None (TSlice (TSlice (TUint I8)));
              field "BinaryEncoder" None binaryEncoder;
              field "Bool" None TBool;
              field "BoolPtr" (Some "boolPtr") (TPtr TBool);
              field "Other" (Some "-") TString;
              field "time" None TTime]).

(** The value of the test "all types", but for the float. *)
Definition allTypes (floatPtr : value) : value :=
  VStruct [VString dn; VInt 0; VInt 0; floatPtr; VUint 255; VPtr (VString "");
           VSlice [VString "one"]; VNilSlice; VNilSlice; VNilSlice;
           VStruct [VBool false; VString ""]; VBool false; VNilPtr; VString "";
           VTime zeroTimeSec 0].

(** A record with a boolean field: [struct { DN string; Bool bool }]. *)
Definition boolRecord : rtype :=
  TStruct [field "DN" None TString; field "Bool" None TBool].

(** [struct { DN string; hidden *string }]. *)
Definition hiddenRecord : rtype :=
  TStruct [field "DN" None TString; field "hidden" None (TPtr TString)].

(** [struct { ID string `ldap:"DN"` }]: the identity named in upper case. *)
Definition upperDNRecord : rtype :=
  TStruct [field "ID" (Some "DN") TString].

(** [struct { DN *string }]. *)
Definition ptrDNRecord : rtype :=
  TStruct [field "DN" None (TPtr TString)].

(** [struct { DN string; S []string }]. *)
Definition sliceRecord : rtype :=
  TStruct [field "DN" None TString; field "S" None (TSlice TString)].

Definition ptrTo (t : rtype) (v : value) : iface := Some (TPtr t, VPtr v).

(** ** Predicates the statements use *)


(** The induction principle of [rtype] with the fields of a struct. *)
Section rtype_induction.
Variable P : rtype -> Prop.
Hypothesis HBool : P TBool.
Hypothesis HInt : forall s, P (TInt s).
Hypothesis HUint : forall s, P (TUint s).
Hypothesis HFloat : forall b, P (TFloat b).
Hypothesis HString : P TString.
Hypothesis HSlice : forall e, P e -> P (TSlice e).
Hypothesis HPtr : forall e, P e -> P (TPtr e).
Hypothesis HStruct : forall fs, Forall (fun f => P (fType f)) fs -> P (TStruct fs).
Hypothesis HTime : P TTime.
Hypothesis HNamed : forall n ms u, P u -> P (TNamed n ms u).
Hypothesis HOther : forall n, P (TOther n).

Fixpoint rtype_fields_ind (t : rtype) : P t :=
  match t with
  | TBool => HBool
  | TInt s => HInt s
  | TUint s => HUint s
  | TFloat b => HFloat b
  | TString => HString
  | TSlice e => HSlice e (rtype_fields_ind e)
  | TPtr e => HPtr e (rtype_fields_ind e)
  | TStruct fs =>
      HStruct fs
        ((fix all (fs : list (StructField rtype)) : Forall (fun f => P (fType f)) fs :=
            match fs with
            | [] => Forall_nil _
            | f :: fs' => Forall_cons f (rtype_fields_ind (fType f)) (all fs')
            end) fs)
  | TTime => HTime
  | TNamed n ms u => HNamed n ms u (rtype_fields_ind u)
  | TOther n => HOther n
  end.
End rtype_induction.



(** The elements of a slice. *)
Definition elements (v : value) : list value :=
  match v with
  | VSlice xs => xs
  | _ => []
  end.



(** ** Records that survive the round trip (C1) *)

(** The text of a scalar value. *)
Definition text (v : value) : string :=
  match v with
  | VString s => s
  | VInt n | VUint n => formatInt n
  | VSlice _ => stringOfBytes v
  | _ => ""
  end.


Definition isByte (v : value) : bool :=
  match v with
  | VUint n => (0 <=? n) && (n <? 256)
  | _ => false
  end.









(** A record type without methods, defined or not. *)
Definition record (name : option string) (fs : list (StructField rtype)) : rtype :=
  match name with
  | Some n => TNamed n noMethods (TStruct fs)
  | None => TStruct fs
  end.


(** The shapes [scalarOK] and [fieldOK] admit, case by case. *)
Inductive scalarCase : rtype -> value -> Prop :=
| case_string s : scalarCase TString (VString s)
| case_int sz n : - 2 ^ (bits sz - 1) <= n < 2 ^ (bits sz - 1) -> scalarCase (TInt sz) (VInt n)
| case_uint sz n : 0 <= n < 2 ^ bits sz -> scalarCase (TUint sz) (VUint n)
| case_bytes xs : forallb isByte xs = true -> scalarCase (TSlice (TUint I8)) (VSlice xs).



(** A record with one field of each admitted shape. *)
Definition plainFields : list (StructField rtype) :=
  [field "DN" None TString;
   field "Alpha" (Some "beta") TString;
   field "Int16" (Some "itIsAnInt16") (TInt I16);
   field "IntZero" (Some "intZero, omitempty") (TInt I0);
   field "Uint8" None (TUint I8);
   field "StringPtr" None (TPtr TString);
   field "StringSlice" None (TSlice TString);
   field "Raw" (Some "singleRaw") (TSlice (TUint I8));
   field "RawSlice" (Some "multiRaw,omitempty") (TSlice (TSlice (TUint I8)))].


(** ** marshal.go: the batch helpers *)

(** The result of a helper that first checks its argument's kind:
    [NotSlicePointer] is [errors.New("v is not a slice pointer")]. *)
Inductive sliceCheck (A : Type) :=
| NotSlicePointer
| Passed (r : A).
Arguments NotSlicePointer {A}.
Arguments Passed {A} r.

(** The loop of [MarshalSlice] from element [i] on, with [out] as it
    stands; [et] is the slice's element type. *)
Fixpoint marshalEach (L : Libs) (et : rtype) (xs : list value) (out : list Entry)
  : result (list Entry) :=
  match xs with
  | [] => Ok out
  | x :: xs' =>
      match Marshal L (Some (et, x)) with
      | Ok e => marshalEach L et xs' (out ++ [e])
      | Err err => Err err
      | Panic => Panic
      end
  end.

(** [MarshalSlice]: the elements are passed to [Marshal] by value
    ([vv.Index(i).Interface()]); a nil slice has no element. *)
Definition MarshalSlice (L : Libs) (v : iface) : sliceCheck (result (list Entry)) :=
  match v with
  | None => Passed (Err errVIsNil)
  | Some (t, x) =>
      if negb (isSlice t) then NotSlicePointer
      else Passed (marshalEach L (elemOf t) (elements x) [])
  end.

(** [ev.Elem()] of the pointer [reflect.New] returned. *)
Definition pointee (v : value) : value :=
  match v with
  | VPtr x => x
  | _ => v
  end.

(** The type [reflect.New] is called with: the element type, or what it
    points to. *)
Definition newTarget (et : rtype) : rtype :=
  if isPtr et then elemOf et else et.

(** The loop of [UnmarshalSlice]; [vv] is the slice [v] points to, [None]
    when [v] is a nil pointer ([reflect.Append] then panics). *)
Fixpoint unmarshalEach (L : Libs) (et : rtype) (entries : list Entry) (vv : option value)
  : outcome (option value) :=
  match entries with
  | [] => Return vv None
  | e :: rest =>
      match Unmarshal L e (Some (TPtr (newTarget et), VPtr (zero (newTarget et)))) with
      | Return ev err =>
          match err with
          | Some err => Return vv (Some err)
          | None =>
              match ev, vv with
              | Some (_, ev), Some s =>
                  unmarshalEach L et rest
                    (Some (appendValue s (if isPtr et then ev else pointee ev)))
              | _, _ => Crash
              end
          end
      | Crash => Crash
      end
  end.

(** [UnmarshalSlice]: the argument as the call leaves it, and the error.
    Each entry is decoded into a new zero variable, which is appended (or
    the pointer to it) to the slice [v] points to. *)
Definition UnmarshalSlice (L : Libs) (entries : list Entry) (v : iface)
  : sliceCheck (outcome iface) :=
  match v with
  | None => Passed (Return None (Some errVIsNil))
  | Some (t, x) =>
      if negb (isPtr t) then Passed (Return v (Some ErrNotPointer))
      else if negb (isSlice (elemOf t)) then NotSlicePointer
      else
        Passed
          (onState (fun vv => Some (t, match vv with
                                       | Some s => VPtr s
                                       | None => x
                                       end))
             (unmarshalEach L (elemOf (elemOf t)) entries
                (match x with
                 | VPtr s => Some s
                 | _ => None
                 end)))
  end.

(** The induction principle of [value] with the elements of a slice and the
    fields of a struct. *)
Section value_induction.
Variable P : value -> Prop.
Hypothesis HBool : forall b, P (VBool b).
Hypothesis HInt : forall n, P (VInt n).
Hypothesis HUint : forall n, P (VUint n).
Hypothesis HFloat : forall b, P (VFloat b).
Hypothesis HString : forall s, P (VString s).
Hypothesis HNilSlice : P VNilSlice.
Hypothesis HSlice : forall xs, Forall P xs -> P (VSlice xs).
Hypothesis HNilPtr : P VNilPtr.
Hypothesis HPtr : forall x, P x -> P (VPtr x).
Hypothesis HStruct : forall fs, Forall P fs -> P (VStruct fs).
Hypothesis HTime : forall s n, P (VTime s n).
Hypothesis HOther : forall z, P (VOther z).

End value_induction.

(** ** Records [Marshal] and [Unmarshal] carry both ways *)

(** The text of a boolean. *)
Definition boolText (b : bool) : string := if b then "TRUE" else "FALSE".








(** What [UnmarshalSlice] appends for the entry [e]: the pointer
    [reflect.New] gave, or its variable, after [Unmarshal]. *)
Definition decodedAs (L : Libs) (et : rtype) (e : Entry) (x : value) : Prop :=
  exists ev,
    Unmarshal L e (ptrTo (newTarget et) (zero (newTarget et)))
    = Return (Some (TPtr (newTarget et), ev)) None
    /\ x = if isPtr et then ev else pointee ev.



(** The elements of a slice from the first one that is not zero. *)
Fixpoint dropZeros (xs : list value) : list value :=
  match xs with
  | [] => []
  | x :: xs' => if IsZero x then dropZeros xs' else xs
  end.

(** The entry without the attributes whose name is [dn] up to letter
    case. *)
Definition notNamedDN (L : Libs) (a : EntryAttribute) : bool := negb (isDN L (Name a)).

Definition withoutDN (L : Libs) (e : Entry) : Entry :=
  {| DN := DN e; Attributes := filter (notNamedDN L) (Attributes e) |}.





(** The offset between the epochs of a file time and of Unix time, in
    units of 100 nanoseconds. *)
Definition fileTimeEpoch : Z := 116444736000000000.

(** Whether the attribute carries the name [attribute], up to letter
    case. *)
Definition named (L : Libs) (attribute : string) (a : EntryAttribute) : bool :=
  (ToLower L (Name a) =? ToLower L attribute)%string.

(** A tag: the name, and the options after the first comma if there is
    one. *)
Definition tagText (name : string) (options : option string) : string :=
  match options with
  | Some o => name ++ "," ++ o
  | None => name
  end.

Definition noComma (s : string) : bool :=
  negb (existsb (fun c => (c =? ",")%char) (chars s)).

(** [NewEncoder] and [NewDecoder] of the later [marshal.go], and of the
    earlier one. *)
Definition NewEncoder (useInterface : bool) : Root.encoder :=
  {| Root.useInterface := useInterface |}.
Definition NewDecoder (useInterface : bool) : V3.decoder :=
  {| V3.useInterface := useInterface |}.
Definition NewDecoder0 (e : Entry) : Root.decoder := {| Root.e := e |}.






(** * Properties *)


(** ** The package's tests, run on the definitions *)

Example test_encode_nil L : Marshal L None = Err errVIsNil.
Proof. reflexivity. Qed.

Example test_invalid_dn_type L :
  Marshal L (Some (TStruct [field "DN" None (TInt I0)], VStruct [VInt 0]))
  = Err (ErrUnsupportedDNType "int").
Proof. reflexivity. Qed.

Example test_no_dn L :
  Marshal L (ptrTo TypeNoDN (VStruct [VString "test"])) = Err ErrNoDN.
Proof. reflexivity. Qed.

Example test_embed_struct L :
  Marshal L (ptrTo TypeEmbed (VStruct [VString dn; VStruct [VString "string"]]))
  = Ok {| DN := dn; Attributes := [NewEntryAttribute "string" ["string"]] |}.
Proof. reflexivity. Qed.

Example test_tag_override_field_name L :
  Marshal L (ptrTo TypeTags (VStruct [VString dn; VString ""; VString "alpha"]))
  = Ok {| DN := dn; Attributes := [NewEntryAttribute "beta" ["alpha"]] |}.
Proof. reflexivity. Qed.

(** "all types": ten attributes. *)
Example test_all_types L f :
  exists attrs,
    Marshal L (ptrTo TypesAll (allTypes (VPtr (VFloat f)))) = Ok {| DN := dn; Attributes := attrs |}
    /\ List.length attrs = 10%nat.
Proof. eexists. split; reflexivity. Qed.

Example test_decode_to_nil L : Unmarshal L {| DN := ""; Attributes := [] |} None
                               = Return None (Some errDecodeNil).
Proof. reflexivity. Qed.

Example test_decode_to_non_pointer L :
  Unmarshal L {| DN := ""; Attributes := [] |} (Some (TStruct [], VStruct []))
  = Return (Some (TStruct [], VStruct [])) (Some ErrNotPointer).
Proof. reflexivity. Qed.

Example test_decode_no_dn L :
  Unmarshal L {| DN := ""; Attributes := [] |} (ptrTo TypeNoDN (zero TypeNoDN))
  = Return (ptrTo TypeNoDN (zero TypeNoDN)) (Some ErrNoDN).
Proof. reflexivity. Qed.

Example test_decode_dn_only L :
  Unmarshal L {| DN := dn; Attributes := [] |} (ptrTo TypeEmbed (zero TypeEmbed))
  = Return (ptrTo TypeEmbed (VStruct [VString dn; VStruct [VString ""]])) None.
Proof. reflexivity. Qed.

Example test_decode_to_embed L :
  Unmarshal L {| DN := dn;
                 Attributes := [NewEntryAttribute "string" ["one"];
                                NewEntryAttribute "noop" ["noop"]] |}
    (ptrTo TypeEmbed (zero TypeEmbed))
  = Return (ptrTo TypeEmbed (VStruct [VString dn; VStruct [VString "one"]])) None.
Proof. reflexivity. Qed.

Example test_decode_to_struct_with_tags L :
  Unmarshal L {| DN := dn;
                 Attributes := [NewEntryAttribute "beta" ["4"];
                                NewEntryAttribute "noop" ["noop"]] |}
    (ptrTo TypeTags (zero TypeTags))
  = Return (ptrTo TypeTags (VStruct [VString dn; VString ""; VString "4"])) None.
Proof. reflexivity. Qed.

(** "decode all types", for a library that parses the float's text back. *)
Example test_decode_all_types L f :
  ParseFloat L "f" = inl f ->
  Unmarshal L
    {| DN := dn;
       Attributes :=
         [NewEntryAttribute "itIsAnInt16" ["4"; "22"];
          NewEntryAttribute "intZero" [];
          NewEntryAttribute "floatPtr" ["f"];
          NewEntryAttribute "uint8" ["255"];
          NewEntryAttribute "stringPtr" ["string pointer"];
          NewEntryAttribute "stringSlice" ["one"; "two"; "three"];
          NewEntryAttribute "singleRaw" ["one"];
          NewEntryAttribute "multiRaw" ["one"; "two"; "three"];
          NewEntryAttribute "binaryEncoder" ["whatever"];
          NewEntryAttribute "bool" ["TRUE"];
          NewEntryAttribute "boolPtr" ["FALSE"]] |}
    (ptrTo TypesAll (zero TypesAll))
  = Return
      (ptrTo TypesAll
         (VStruct [VString dn; VInt 4; VInt 0; VPtr (VFloat f); VUint 255;
                   VPtr (VString "string pointer");
                   VSlice [VString "one"; VString "two"; VString "three"];
                   bytesOfString "one";
                   VSlice [bytesOfString "one"; bytesOfString "two"; bytesOfString "three"];
                   VNilSlice; VStruct [VBool false; VString "whatever"];
                   VBool true; VPtr (VBool false); VString ""; VTime zeroTimeSec 0]))
      None.
Proof.
  intros Hf. unfold Unmarshal, V3.Decode, ptrTo.
  cbn -[ParseFloat]. rewrite Hf. reflexivity.
Qed.

(** ** The tag resolver and the identity test *)




(** ** Visibility (C2) *)

(** The encoder with the check passes over a field whose name does
    not start in upper case: the loop goes on with nothing added. *)
Lemma Root_encodeFields_skips_lower L emb ft fv fs vs ro addr attrs d :
  upperFirst (fName ft) = false ->
  Root.encodeFields L emb (ft :: fs) (fv :: vs) ro addr attrs d
  = Root.encodeFields L emb fs vs ro addr attrs d.
Proof.
  intros H. cbn [Root.encodeFields]. rewrite H. reflexivity.
Qed.

(** So does the decoder of src/v3: the field keeps its value and no
    error is returned. *)
Lemma V3_decodeOne_skips_lower L e emb ft fv ro :
  upperFirst (fName ft) = false ->
  V3.decodeOne L e emb ft fv ro = Return fv None.
Proof.
  intros H. unfold V3.decodeOne. rewrite H. reflexivity.
Qed.

Lemma Root_encodeFields_skips_lower_witness :
  Root.encodeFields asciiLibs (Root.encodeStructFields asciiLibs)
    [field "hidden" None (TPtr TString)] [VNilPtr] false true [] ""
  = Root.encodeFields asciiLibs (Root.encodeStructFields asciiLibs) [] [] false true [] "".
Proof. apply Root_encodeFields_skips_lower. reflexivity. Defined.

Lemma V3_decodeOne_skips_lower_witness :
  V3.decodeOne asciiLibs {| DN := "cn=u"; Attributes := [NewEntryAttribute "hidden" ["x"]] |}
    (V3.decodeStruct asciiLibs {| DN := "cn=u"; Attributes := [] |})
    (field "hidden" None TString) (VString "kept") false
  = Return (VString "kept") None.
Proof. apply V3_decodeOne_skips_lower. reflexivity. Defined.

(** C2 (src/v3/encode.go): the encoder of src/v3 has no visibility check.
    Encoding [&struct{ DN string; hidden *string }{"cn=u", nil}] yields
    an entry with an attribute named [hidden], for a field that is not
    exported. *)
Theorem C2_v3_encoder_emits_unexported_field :
  forall L,
    V3.Encode L (ptrTo hiddenRecord (VStruct [VString "cn=u"; VNilPtr]))
    = Ok {| DN := "cn=u"; Attributes := [emptyAttr "hidden"] |}.
Proof.
  intros L. reflexivity.
Qed.

(** ** Ignored fields *)

(** A field tagged ["-"] never appears in the entry, with either
    encoder, and is never written by either decoder. *)
Lemma ignored_field_is_passed_over L ft fv :
  ignored (parseTag L ft) = true ->
  (forall emb fs vs ro attrs d,
      V3.encodeFields L emb (ft :: fs) (fv :: vs) ro attrs d
      = V3.encodeFields L emb fs vs ro attrs d)
  /\ (forall emb fs vs ro addr attrs d,
         Root.encodeFields L emb (ft :: fs) (fv :: vs) ro addr attrs d
         = Root.encodeFields L emb fs vs ro addr attrs d)
  /\ (forall e emb ro, V3.decodeOne L e emb ft fv ro = Return fv None)
  /\ (forall e emb ro, Root.decodeOne L e emb ft fv ro = Return fv None).
Proof.
  intros Hi. repeat split; intros.
  - cbn [V3.encodeFields]. rewrite Hi. reflexivity.
  - cbn [Root.encodeFields]. rewrite Hi. destruct (negb (upperFirst (fName ft))); reflexivity.
  - unfold V3.decodeOne. rewrite Hi. destruct (negb (upperFirst (fName ft))); reflexivity.
  - unfold Root.decodeOne. rewrite Hi. reflexivity.
Qed.

Lemma ignored_field_is_passed_over_witness :
  V3.decodeOne asciiLibs {| DN := "cn=u"; Attributes := [NewEntryAttribute "other" ["x"]] |}
    (V3.decodeStruct asciiLibs {| DN := "cn=u"; Attributes := [] |})
    (field "Other" (Some "-") TString) (VString "kept") false
  = Return (VString "kept") None.
Proof.
  exact (proj1 (proj2 (proj2 (ignored_field_is_passed_over asciiLibs
                                (field "Other" (Some "-") TString) (VString "kept") eq_refl)))
           _ _ _).
Defined.

(** ** Booleans (C3) *)

(** The encoder with the [bool] case gives one value, [TRUE] or
    [FALSE]. *)
Lemma Root_encodeField_bool L name (b : bool) omitEmpty addr :
  isDN L name = false ->
  omitEmpty && negb b = false ->
  Root.encodeField L name TBool (VBool b) omitEmpty false addr
  = Ok (Some (NewEntryAttribute name [if b then "TRUE" else "FALSE"]), "").
Proof.
  intros Hdn Hz. cbn. rewrite Hz, Hdn. reflexivity.
Qed.

Lemma Root_encodeField_bool_witness :
  Root.encodeField asciiLibs "bool" TBool (VBool false) false false true
  = Ok (Some (NewEntryAttribute "bool" ["FALSE"]), "").
Proof. apply (Root_encodeField_bool asciiLibs "bool" false false true); reflexivity. Defined.

(** C3 (src/v3/encode.go): the type switch of src/v3 has no [bool] case, so
    a boolean field makes [Encode] fail with [ErrUnsupportedType], where the
    other encoder emits [TRUE] or [FALSE]. *)
Theorem C3_v3_encoder_has_no_bool_case :
  forall L (b : bool),
    V3.Encode L (ptrTo boolRecord (VStruct [VString "cn=u"; VBool b]))
    = Err (ErrUnsupportedType "bool")
    /\ Root.Encode L DefaultEncoder (ptrTo boolRecord (VStruct [VString "cn=u"; VBool b]))
       = Ok {| DN := "cn=u";
               Attributes := [NewEntryAttribute "bool" [if b then "TRUE" else "FALSE"]] |}.
Proof.
  intros L b. destruct b; split; reflexivity.
Qed.

(** ** Letter case (C4) *)

(** X4: the lookup of an attribute sees names up to letter case only. *)
Lemma getAttributeValues_case L attrs a b :
  ToLower L a = ToLower L b ->
  getAttributeValues L attrs a = getAttributeValues L attrs b.
Proof.
  intros H. induction attrs as [|x xs IH]; cbn; [reflexivity|].
  rewrite H, IH. reflexivity.
Qed.

Lemma getAttributeValues_case_witness :
  getAttributeValues asciiLibs [NewEntryAttribute "givenName" ["x"]] "GIVENNAME"
  = getAttributeValues asciiLibs [NewEntryAttribute "givenName" ["x"]] "givenname".
Proof. apply getAttributeValues_case. reflexivity. Defined.

(** C4 (marshal.go, [hasDN]): the structural check compares the resolved
    name with [dn] by [==], not up to case. For the target
    [struct { ID string `ldap:"DN"` }] [Decode] fails with [ErrNoDN], though
    [decodeStruct] itself takes the field for the identity and would store
    the entry's DN in it. *)
Theorem C4_hasDN_compares_case_sensitively :
  forall L e v,
    V3.Decode L DefaultDecoder e (ptrTo upperDNRecord (VStruct [v]))
    = Return (ptrTo upperDNRecord (VStruct [v])) (Some ErrNoDN)
    /\ V3.decodeStruct L e upperDNRecord (VStruct [VString ""]) false
       = Return (VStruct [VString (DN e)]) None.
Proof.
  intros L e v. split; reflexivity.
Qed.

(** ** Decoding into a shape without identity (C5) *)



(** ** The order of failures in [Encode] (C6) *)





(** ** The traversal, field by field *)





(** ** The identity field (C7) *)




(** A nil pointer in the identity field is answered by the guard for nil
    pointers, before the identity branch: no [ErrUnsupportedDNType],
    whatever the library functions are. *)
Lemma nil_pointer_identity_any_libs L :
  V3.Encode L (ptrTo ptrDNRecord (VStruct [VNilPtr])) = Err ErrNoDN
  /\ Root.Encode L DefaultEncoder (ptrTo ptrDNRecord (VStruct [VNilPtr])) = Err ErrNoDN.
Proof. split; reflexivity. Qed.




(** ** Omit-if-empty (C8) *)








(** ** One value or many (C9) *)

Lemma elements_appendValue v e : elements (appendValue v e) = (elements v ++ [e])%list.
Proof. destruct v; reflexivity. Qed.

Lemma V3_appendDecoded_elements L et vals :
  forall v ro v',
    V3.appendDecoded L et v vals ro = Return v' None ->
    exists es,
      elements v' = (elements v ++ es)%list
      /\ Forall2 (fun va e => V3.setValue L et (zero et) va false = Return e None) vals es.
Proof.
  induction vals as [|va rest IH]; intros v ro v' H; cbn [V3.appendDecoded] in H.
  - injection H as <-. exists []. rewrite List.app_nil_r. split; constructor.
  - destruct (V3.setValue L et (zero et) va false) as [e [err|]|] eqn:Es;
      try discriminate.
    destruct ro; try discriminate.
    destruct (IH _ _ _ H) as (es & He & Hall).
    exists (e :: es). split.
    + rewrite He, elements_appendValue, <- List.app_assoc. reflexivity.
    + constructor; assumption.
Qed.

(** A collection that already holds an element keeps it: decoding two
    values into [S = []string{"x"}] leaves three elements, whatever the
    library functions are. *)
Lemma held_elements_stay_any_libs L :
  V3.Decode L DefaultDecoder
    {| DN := "cn=u"; Attributes := [NewEntryAttribute "s" ["a"; "b"]] |}
    (ptrTo sliceRecord (VStruct [VString ""; VSlice [VString "x"]]))
  = Return (ptrTo sliceRecord
              (VStruct [VString "cn=u"; VSlice [VString "x"; VString "a"; VString "b"]]))
      None.
Proof. reflexivity. Qed.

(** C9, counterexample: two values decoded into a slice that holds one
    element leave three elements, not two. *)
Lemma C9_counterexample :
  V3.Decode asciiLibs DefaultDecoder
    {| DN := "cn=u"; Attributes := [NewEntryAttribute "s" ["a"; "b"]] |}
    (ptrTo sliceRecord (VStruct [VString ""; VSlice [VString "x"]]))
  = Return (ptrTo sliceRecord
              (VStruct [VString "cn=u"; VSlice [VString "x"; VString "a"; VString "b"]]))
      None.
Proof. reflexivity. Qed.

(** C9, amended: a field that is not a slice is set from the first value
    alone, whatever the further values are; a slice field whose elements are
    not bytes, when every value coerces, is extended by one new element per
    value, each the value coerced into a fresh zero element, in the order of
    the values and after the elements it already held. *)
Theorem C9_first_value_or_one_element_per_value :
  forall L t v ro,
    (isSlice t = false ->
     forall va rest,
       V3.decodeStructField L t v (va :: rest) ro = V3.setValue L t v va ro
       /\ V3.decodeStructField L t v (va :: rest) ro = V3.decodeStructField L t v [va] ro)
    /\ (isSlice t = true ->
        isByteKind (elemOf t) = false ->
        forall vals v',
          V3.decodeStructField L t v vals ro = Return v' None ->
          exists es,
            elements v' = (elements v ++ es)%list
            /\ List.length es = List.length vals
            /\ Forall2 (fun va e =>
                          V3.setValue L (elemOf t) (zero (elemOf t)) va false
                          = Return e None) vals es).
Proof.
  intros L t v ro. split.
  - intros Hs va rest. unfold V3.decodeStructField. rewrite Hs. split; reflexivity.
  - intros Hs Hb vals v' H. unfold V3.decodeStructField in H. rewrite Hs, Hb in H.
    destruct (V3_appendDecoded_elements _ _ _ _ _ _ H) as (es & He & Hall).
    exists es. repeat split; try assumption.
    symmetry. eapply Forall2_length; eassumption.
Qed.

(** The test of the package: three values into a fresh [[]string]. *)
Lemma C9_witness :
  exists es,
    elements (VSlice [VString "one"; VString "two"; VString "three"])
    = (elements VNilSlice ++ es)%list
    /\ List.length es = List.length ["one"; "two"; "three"]
    /\ Forall2 (fun va e =>
                  V3.setValue asciiLibs (elemOf (TSlice TString))
                    (zero (elemOf (TSlice TString))) va false
                  = Return e None) ["one"; "two"; "three"] es.
Proof.
  exact (proj2 (C9_first_value_or_one_element_per_value asciiLibs
                  (TSlice TString) VNilSlice false)
           eq_refl eq_refl ["one"; "two"; "three"]
           (VSlice [VString "one"; VString "two"; VString "three"]) eq_refl).
Defined.

(** ** Fields without a matching attribute (C10) *)












(** ** The round trip (C1) *)

(** *** Decimal text of integers *)

Lemma parseDigits_uint d :
  d <> Decimal.Nil -> parseDigits (NilEmpty.string_of_uint d) = Some (Z.of_uint d).
Proof.
  intros Hd. unfold parseDigits.
  rewrite NilEmpty.usu.
  destruct d; try contradiction; reflexivity.
Qed.

Lemma parseDigits_pos p :
  parseDigits (NilEmpty.string_of_uint (Pos.to_uint p)) = Some (Z.pos p).
Proof.
  rewrite parseDigits_uint by apply Unsigned.to_uint_nonnil.
  unfold Z.of_uint. rewrite Unsigned.of_to. reflexivity.
Qed.

(** A decimal numeral starts with a digit, not with a sign. *)
Lemma string_of_uint_head d :
  d <> Decimal.Nil ->
  exists c rest, NilEmpty.string_of_uint d = String c rest
                 /\ (c =? "+")%char = false /\ (c =? "-")%char = false.
Proof.
  intros Hd. destruct d; try contradiction; cbn; eauto 6.
Qed.

Lemma parseSigned_formatInt fn n :
  - 2 ^ 63 <= n < 2 ^ 63 -> parseSigned fn (formatInt n) = Ok n.
Proof.
  intros Hn. unfold parseSigned, formatInt.
  assert (Hr : (- 2 ^ 63 <=? n) && (n <? 2 ^ 63) = true).
  { apply andb_true_intro. split; [apply Z.leb_le|apply Z.ltb_lt]; lia. }
  destruct n as [|p|p].
  - reflexivity.
  - cbn [Z.to_int NilEmpty.string_of_int].
    destruct (string_of_uint_head (Pos.to_uint p) (Unsigned.to_uint_nonnil p))
      as (c & rest & E & E1 & E2).
    pose proof (parseDigits_pos p) as Hp. rewrite E in *. rewrite E1, E2, Hp, Hr.
    reflexivity.
  - cbn [Z.to_int NilEmpty.string_of_int].
    change ("-" =? "+")%char with false. change ("-" =? "-")%char with true.
    cbv iota. rewrite parseDigits_pos. cbn [option_map Z.opp]. rewrite Hr. reflexivity.
Qed.

Lemma ParseUint_formatInt n :
  0 <= n < 2 ^ 64 -> ParseUint (formatInt n) = Ok n.
Proof.
  intros Hn. unfold ParseUint, formatInt.
  assert (Hr : (n <? 2 ^ 64) = true) by (apply Z.ltb_lt; lia).
  destruct n as [|p|p]; try lia.
  - reflexivity.
  - cbn [Z.to_int NilEmpty.string_of_int]. rewrite parseDigits_pos, Hr. reflexivity.
Qed.

Lemma wrapS_small w n :
  0 < w -> - 2 ^ (w - 1) <= n < 2 ^ (w - 1) -> wrapS w n = n.
Proof.
  intros Hw Hn. unfold wrapS.
  assert (H2 : 2 ^ w = 2 * 2 ^ (w - 1)).
  { replace w with (Z.succ (w - 1)) at 1 by lia. rewrite Z.pow_succ_r by lia. reflexivity. }
  rewrite Z.mod_small by lia. lia.
Qed.




(** *** Bytes and text *)


Lemma ascii_of_Z_byte_of c : ascii_of_Z (byte_of c) = c.
Proof.
  unfold byte_of, ascii_of_Z.
  assert (H : (N_of_ascii c < 256)%N) by apply N_ascii_bounded.
  rewrite Z.mod_small by lia.
  rewrite N2Z.id. apply ascii_N_embedding.
Qed.

Lemma stringOfBytes_bytesOfString s : stringOfBytes (bytesOfString s) = s.
Proof.
  unfold stringOfBytes, bytesOfString, str, chars.
  rewrite map_map. cbn [byteOfValue].
  rewrite (map_ext _ (fun c => c)) by (intros c; apply ascii_of_Z_byte_of).
  rewrite map_id. apply string_of_list_ascii_of_string.
Qed.



(** *** One scalar *)


Lemma scalar_encode L name t v omit :
  scalarCase t v ->
  isDN L name = false ->
  omit && IsZero v = false ->
  V3.encodeField L name t v omit false
  = Ok (Some (NewEntryAttribute name [text v]), "").
Proof.
  intros Hok Hdn Hz.
  destruct Hok; cbn [V3.encodeField]; rewrite Hz, Hdn; reflexivity.
Qed.




(** *** The elements of a slice *)





(** *** One field *)



Lemma not_byte_kind e :
  isByteKind e = false ->
  isByteSlice (TSlice e) = false /\ forall L v, V3.scalarText L (TSlice e) v = None.
Proof.
  intros H. destruct e; try (split; reflexivity).
  destruct s; try (split; reflexivity). discriminate.
Qed.




(** *** The record *)











(** A list with the zero element omitted by the element loop: [S] comes
    back as [["a"]], not [["", "a"]], whatever the library functions
    are. *)
Lemma zero_element_lost_any_libs L :
  V3.Encode L
    (ptrTo sliceRecord (VStruct [VString "cn=u"; VSlice [VString ""; VString "a"]]))
  = Ok {| DN := "cn=u"; Attributes := [NewEntryAttribute "s" ["a"]] |}
  /\ V3.Decode L DefaultDecoder
       {| DN := "cn=u"; Attributes := [NewEntryAttribute "s" ["a"]] |}
       (ptrTo sliceRecord (zero sliceRecord))
     = Return (ptrTo sliceRecord (VStruct [VString "cn=u"; VSlice [VString "a"]])) None.
Proof. split; reflexivity. Qed.




(** ** [Marshal] then [Unmarshal] *)

Lemma Root_scalar_encode L name t v omit addr :
  scalarCase t v ->
  isDN L name = false ->
  omit && IsZero v = false ->
  Root.encodeField L name t v omit false addr
  = Ok (Some (NewEntryAttribute name [text v]), "").
Proof.
  intros Hok Hdn Hz.
  destruct Hok; cbn [Root.encodeField]; rewrite Hz, Hdn; reflexivity.
Qed.

Lemma Root_not_byte_kind e :
  isByteKind e = false -> forall L v, Root.scalarText L (TSlice e) v = None.
Proof.
  intros H L v. destruct e; try reflexivity.
  destruct s; try reflexivity. discriminate.
Qed.


















(** ** The batch helpers *)

Lemma marshalEach_ok L et xs :
  forall out out',
    marshalEach L et xs out = Ok out' <->
    exists es, Forall2 (fun x e => Marshal L (Some (et, x)) = Ok e) xs es
               /\ out' = (out ++ es)%list.
Proof.
  induction xs as [|x xs IH]; intros out out'; cbn [marshalEach].
  - split.
    + intros H. injection H as <-. exists []. split; [constructor|].
      rewrite List.app_nil_r. reflexivity.
    + intros (es & Hall & ->). inversion Hall. rewrite List.app_nil_r. reflexivity.
  - destruct (Marshal L (Some (et, x))) as [e|err|] eqn:Ex.
    + rewrite IH. split.
      * intros (es & Hall & ->). exists (e :: es). split; [constructor; assumption|].
        rewrite <- List.app_assoc. reflexivity.
      * intros (es & Hall & ->). inversion Hall as [|? e' ? es' He Hes]; subst.
        assert (e' = e) by congruence. subst e'.
        exists es'. split; [assumption|]. rewrite <- List.app_assoc. reflexivity.
    + split; [discriminate|]. intros (es & Hall & _). inversion Hall; congruence.
    + split; [discriminate|]. intros (es & Hall & _). inversion Hall; congruence.
Qed.

Lemma marshalEach_app L et pre :
  forall post out es,
    Forall2 (fun x e => Marshal L (Some (et, x)) = Ok e) pre es ->
    marshalEach L et (pre ++ post) out = marshalEach L et post (out ++ es).
Proof.
  induction pre as [|x pre IH]; intros post out es Hall; inversion Hall; subst.
  - rewrite List.app_nil_r. reflexivity.
  - cbn [app marshalEach]. rewrite H1. rewrite (IH post _ l' H3), <- List.app_assoc.
    reflexivity.
Qed.

Lemma MarshalSlice_elements L t x es :
  isSlice t = true ->
  Forall2 (fun y e => Marshal L (Some (elemOf t, y)) = Ok e) (elements x) es ->
  MarshalSlice L (Some (t, x)) = Passed (Ok es).
Proof.
  intros Ht Hall. unfold MarshalSlice. rewrite Ht. cbn [negb]. f_equal.
  apply marshalEach_ok. exists es. split; [exact Hall|reflexivity].
Qed.

(** X8: [MarshalSlice] succeeds exactly when [Marshal] succeeds on every
    element of the slice; the entries are those of the elements, one each,
    in the order of the slice. *)
Theorem MarshalSlice_entries_of_the_elements :
  forall L t x es,
    isSlice t = true ->
    MarshalSlice L (Some (t, x)) = Passed (Ok es) <->
    Forall2 (fun y e => Marshal L (Some (elemOf t, y)) = Ok e) (elements x) es.
Proof.
  intros L t x es Ht. split.
  - unfold MarshalSlice. rewrite Ht. cbn [negb].
    intros H. injection H as H. apply marshalEach_ok in H.
    destruct H as (es' & Hall & ->). exact Hall.
  - apply MarshalSlice_elements. exact Ht.
Qed.

Lemma MarshalSlice_entries_of_the_elements_witness :
  MarshalSlice asciiLibs
    (Some (TSlice TypeTags, VSlice [VStruct [VString dn; VString ""; VString "alpha"]]))
  = Passed (Ok [{| DN := dn; Attributes := [NewEntryAttribute "beta" ["alpha"]] |}]).
Proof.
  apply (MarshalSlice_entries_of_the_elements asciiLibs (TSlice TypeTags)
           (VSlice [VStruct [VString dn; VString ""; VString "alpha"]])).
  - reflexivity.
  - repeat constructor.
Defined.

(** X9: [MarshalSlice] gives up at the first element [Marshal] fails on: the
    error (or the panic) is that element's, no entry is returned, and the
    elements after it are not looked at. *)
Theorem MarshalSlice_first_failure :
  forall L t x pre y post,
    isSlice t = true ->
    elements x = (pre ++ y :: post)%list ->
    Forall (fun z => exists e, Marshal L (Some (elemOf t, z)) = Ok e) pre ->
    (forall err, Marshal L (Some (elemOf t, y)) = Err err ->
                 MarshalSlice L (Some (t, x)) = Passed (Err err))
    /\ (Marshal L (Some (elemOf t, y)) = Panic ->
        MarshalSlice L (Some (t, x)) = Passed Panic).
Proof.
  intros L t x pre y post Ht Hx Hpre. unfold MarshalSlice. rewrite Ht, Hx. cbn [negb].
  assert (Hes : exists es, Forall2 (fun z e => Marshal L (Some (elemOf t, z)) = Ok e) pre es).
  { clear Hx. induction Hpre as [|z pre [e Hz] _ [es IH]].
    - exists []. constructor.
    - exists (e :: es). constructor; assumption. }
  destruct Hes as [es Hes].
  rewrite (marshalEach_app L _ pre (y :: post) [] es Hes). cbn [marshalEach].
  split; [intros err Hy|intros Hy]; rewrite Hy; reflexivity.
Qed.

Lemma MarshalSlice_first_failure_witness :
  (forall err,
      Marshal asciiLibs (Some (elemOf (TSlice TypeNoDN), VStruct [VString "test"])) = Err err ->
      MarshalSlice asciiLibs
        (Some (TSlice TypeNoDN, VSlice [VStruct [VString "test"]; VStruct [VString "more"]]))
      = Passed (Err err))
  /\ (Marshal asciiLibs (Some (elemOf (TSlice TypeNoDN), VStruct [VString "test"])) = Panic ->
      MarshalSlice asciiLibs
        (Some (TSlice TypeNoDN, VSlice [VStruct [VString "test"]; VStruct [VString "more"]]))
      = Passed Panic).
Proof.
  apply (MarshalSlice_first_failure asciiLibs (TSlice TypeNoDN)
           (VSlice [VStruct [VString "test"]; VStruct [VString "more"]])
           [] (VStruct [VString "test"]) [VStruct [VString "more"]]).
  - reflexivity.
  - reflexivity.
  - constructor.
Defined.

Lemma Unmarshal_keeps_type L e t x r err :
  Unmarshal L e (Some (t, x)) = Return r err -> exists x', r = Some (t, x').
Proof.
  unfold Unmarshal, V3.Decode.
  destruct (if V3.useInterface DefaultDecoder then unmarshaler e t x else None) as [o|].
  - destruct o; cbn [onState]; intros H; [|discriminate].
    injection H as <- _. eauto.
  - destruct (negb (isPtr t)); [intros H; injection H as <- _; eauto|].
    destruct x; try (intros H; injection H as <- _; eauto).
    destruct (negb (isStruct (elemOf t))); [intros H; injection H as <- _; eauto|].
    destruct (negb (hasDN L (elemOf t) x)); [intros H; injection H as <- _; eauto|].
    destruct (V3.decodeStruct L e (elemOf t) x false); cbn [onState]; intros H; [|discriminate].
    injection H as <- _. eauto.
Qed.

Lemma elements_fold_appendValue es :
  forall s, elements (fold_left appendValue es s) = (elements s ++ es)%list.
Proof.
  induction es as [|x es IH]; intros s; cbn [fold_left].
  - rewrite List.app_nil_r. reflexivity.
  - rewrite IH, elements_appendValue, <- List.app_assoc. reflexivity.
Qed.


Lemma unmarshalEach_ok L et entries :
  forall s r,
    unmarshalEach L et entries (Some s) = Return r None ->
    exists es, Forall2 (decodedAs L et) entries es
               /\ r = Some (fold_left appendValue es s).
Proof.
  induction entries as [|e entries IH]; intros s r; cbn [unmarshalEach].
  - intros H. injection H as <-. exists []. split; [constructor|reflexivity].
  - destruct (Unmarshal L e (Some (TPtr (newTarget et), VPtr (zero (newTarget et)))))
      as [r0 err|] eqn:Ee; [|discriminate].
    destruct (Unmarshal_keeps_type _ _ _ _ _ _ Ee) as [ev ->].
    destruct err as [err|]; [discriminate|].
    intros H. apply IH in H. destruct H as (es & Hall & ->).
    exists ((if isPtr et then ev else pointee ev) :: es). split; [|reflexivity].
    constructor; [|exact Hall]. exists ev. split; [exact Ee|reflexivity].
Qed.

(** X10: When [UnmarshalSlice] returns without error, the slice holds what it
    held before, followed by one new element for each entry, in the order of
    the entries: the record [Unmarshal] decodes the entry into, or the
    pointer to it when the element type is a pointer. *)
Theorem UnmarshalSlice_one_element_per_entry :
  forall L entries t s r,
    isPtr t = true ->
    isSlice (elemOf t) = true ->
    UnmarshalSlice L entries (Some (t, VPtr s)) = Passed (Return r None) ->
    exists s' es,
      r = Some (t, VPtr s')
      /\ elements s' = (elements s ++ es)%list
      /\ Forall2 (decodedAs L (elemOf (elemOf t))) entries es.
Proof.
  intros L entries t s r Ht Hs. unfold UnmarshalSlice. rewrite Ht, Hs. cbn [negb].
  destruct (unmarshalEach L (elemOf (elemOf t)) entries (Some s)) as [r0 err|] eqn:E;
    cbn [onState]; [|discriminate].
  intros H. injection H as <- ->.
  apply unmarshalEach_ok in E. destruct E as (es & Hall & ->).
  exists (fold_left appendValue es s), es. repeat split.
  - apply elements_fold_appendValue.
  - exact Hall.
Qed.

Lemma UnmarshalSlice_one_element_per_entry_witness :
  exists s' es,
    Some (TPtr (TSlice TypeTags),
          VPtr (VSlice [VStruct [VString "cn=old"; VString ""; VString ""];
                        VStruct [VString dn; VString ""; VString "4"]]))
    = Some (TPtr (TSlice TypeTags), VPtr s')
    /\ elements s' = (elements (VSlice [VStruct [VString "cn=old"; VString ""; VString ""]])
                        ++ es)%list
    /\ Forall2 (decodedAs asciiLibs (elemOf (elemOf (TPtr (TSlice TypeTags)))))
         [{| DN := dn; Attributes := [NewEntryAttribute "beta" ["4"]] |}] es.
Proof.
  apply (UnmarshalSlice_one_element_per_entry asciiLibs
           [{| DN := dn; Attributes := [NewEntryAttribute "beta" ["4"]] |}]
           (TPtr (TSlice TypeTags))
           (VSlice [VStruct [VString "cn=old"; VString ""; VString ""]])); reflexivity.
Defined.

(** X11: [UnmarshalSlice] stops at the first entry [Unmarshal] fails on and
    returns its error; the elements appended for the entries before it stay
    in the slice, and the entries after it are not looked at. *)
Theorem UnmarshalSlice_keeps_what_it_appended :
  forall L t s pre e post es r err,
    isPtr t = true ->
    isSlice (elemOf t) = true ->
    Forall2 (decodedAs L (elemOf (elemOf t))) pre es ->
    Unmarshal L e (ptrTo (newTarget (elemOf (elemOf t))) (zero (newTarget (elemOf (elemOf t)))))
    = Return r (Some err) ->
    UnmarshalSlice L (pre ++ e :: post) (Some (t, VPtr s))
    = Passed (Return (Some (t, VPtr (fold_left appendValue es s))) (Some err)).
Proof.
  intros L t s pre e post es r err Ht Hs Hpre He.
  unfold UnmarshalSlice. rewrite Ht, Hs. cbn [negb]. f_equal.
  assert (H : unmarshalEach L (elemOf (elemOf t)) (pre ++ e :: post) (Some s)
              = Return (Some (fold_left appendValue es s)) (Some err)).
  { clear Ht Hs. revert s. induction Hpre as [|e0 x pre es (ev & Hev & ->) _ IH]; intros s.
    - cbn [app unmarshalEach fold_left]. unfold ptrTo in He. rewrite He. reflexivity.
    - cbn [app unmarshalEach fold_left]. unfold ptrTo in Hev. rewrite Hev. apply IH. }
  rewrite H. reflexivity.
Qed.

Lemma UnmarshalSlice_keeps_what_it_appended_witness :
  UnmarshalSlice asciiLibs
    ([{| DN := dn; Attributes := [NewEntryAttribute "itIsAnInt16" ["4"]] |}]
       ++ {| DN := dn; Attributes := [NewEntryAttribute "itIsAnInt16" ["four"]] |}
       :: [{| DN := dn; Attributes := [] |}])
    (Some (TPtr (TSlice (record None plainFields)), VPtr VNilSlice))
  = Passed
      (Return
         (Some (TPtr (TSlice (record None plainFields)),
                VPtr (fold_left appendValue
                        [VStruct [VString dn; VString ""; VInt 4; VInt 0; VUint 0;
                                  VNilPtr; VNilSlice; VNilSlice; VNilSlice]]
                        VNilSlice)))
         (Some (NumError "ParseInt" "four" false))).
Proof.
  apply (UnmarshalSlice_keeps_what_it_appended asciiLibs
           (TPtr (TSlice (record None plainFields))) VNilSlice
           [{| DN := dn; Attributes := [NewEntryAttribute "itIsAnInt16" ["4"]] |}]
           {| DN := dn; Attributes := [NewEntryAttribute "itIsAnInt16" ["four"]] |}
           [{| DN := dn; Attributes := [] |}]
           [VStruct [VString dn; VString ""; VInt 4; VInt 0; VUint 0;
                     VNilPtr; VNilSlice; VNilSlice; VNilSlice]]
           (ptrTo (record None plainFields)
              (VStruct [VString dn; VString ""; VInt 0; VInt 0; VUint 0;
                        VNilPtr; VNilSlice; VNilSlice; VNilSlice]))).
  - reflexivity.
  - reflexivity.
  - constructor; [|constructor].
    exists (VPtr (VStruct [VString dn; VString ""; VInt 4; VInt 0; VUint 0;
                           VNilPtr; VNilSlice; VNilSlice; VNilSlice])).
    split; reflexivity.
  - reflexivity.
Defined.

(** X12: With a nil pointer to a slice [UnmarshalSlice] succeeds only when
    there is no entry: once an entry has been decoded, appending panics. *)
Theorem UnmarshalSlice_into_nil_pointer :
  forall L t entries,
    isPtr t = true ->
    isSlice (elemOf t) = true ->
    UnmarshalSlice L [] (Some (t, VNilPtr)) = Passed (Return (Some (t, VNilPtr)) None)
    /\ (forall r, UnmarshalSlice L entries (Some (t, VNilPtr)) = Passed (Return r None) ->
                  entries = [])
    /\ (forall e rest ev,
           Unmarshal L e (ptrTo (newTarget (elemOf (elemOf t)))
                            (zero (newTarget (elemOf (elemOf t)))))
           = Return ev None ->
           UnmarshalSlice L (e :: rest) (Some (t, VNilPtr)) = Passed Crash).
Proof.
  intros L t entries Ht Hs. unfold UnmarshalSlice. rewrite Ht, Hs. cbn [negb].
  repeat split.
  - intros r. destruct entries as [|e rest]; [reflexivity|]. cbn [unmarshalEach].
    destruct (Unmarshal L e _) as [[[? ?]|] [err|]|]; cbn [onState]; discriminate.
  - intros e rest ev He. cbn [unmarshalEach]. unfold ptrTo in He. rewrite He.
    destruct ev as [[? ?]|]; reflexivity.
Qed.

Lemma UnmarshalSlice_into_nil_pointer_witness :
  UnmarshalSlice asciiLibs [] (Some (TPtr (TSlice TypeTags), VNilPtr))
  = Passed (Return (Some (TPtr (TSlice TypeTags), VNilPtr)) None)
  /\ (forall r, UnmarshalSlice asciiLibs [] (Some (TPtr (TSlice TypeTags), VNilPtr))
                = Passed (Return r None) -> @nil Entry = [])
  /\ (forall e rest ev,
         Unmarshal asciiLibs e
           (ptrTo (newTarget (elemOf (elemOf (TPtr (TSlice TypeTags)))))
              (zero (newTarget (elemOf (elemOf (TPtr (TSlice TypeTags)))))))
         = Return ev None ->
         UnmarshalSlice asciiLibs (e :: rest) (Some (TPtr (TSlice TypeTags), VNilPtr))
         = Passed Crash).
Proof.
  apply (UnmarshalSlice_into_nil_pointer asciiLibs (TPtr (TSlice TypeTags)) []); reflexivity.
Defined.




(** ** A record passed by value *)







(** The panic does occur: a list of text in a record passed by value. *)
Lemma list_by_value_panics L :
  Marshal L (Some (sliceRecord, VStruct [VString "cn=u"; VSlice [VString "a"]])) = Panic
  /\ Marshal L (ptrTo sliceRecord (VStruct [VString "cn=u"; VSlice [VString "a"]]))
     = Ok {| DN := "cn=u"; Attributes := [NewEntryAttribute "s" ["a"]] |}.
Proof. split; reflexivity. Qed.

(** ** The elements of a list *)

Lemma encodeElems_started name enc ty xs :
  Forall (fun x => scalarCase ty x) xs ->
  (forall x, scalarCase ty x ->
             enc x = if IsZero x then Ok (None, "")
                     else Ok (Some (NewEntryAttribute name [text x]), "")) ->
  forall vals,
    encodeElems name enc xs (Some (NewEntryAttribute name vals))
    = if existsb IsZero xs then Panic
      else Ok (Some (NewEntryAttribute name (vals ++ map text xs)), "").
Proof.
  intros Hall Henc. induction Hall as [|x xs Hx _ IH]; intros vals;
    cbn [encodeElems existsb map].
  - rewrite List.app_nil_r. reflexivity.
  - rewrite (Henc x Hx). destruct (IsZero x); cbn [orb]; [reflexivity|].
    change (appendValues (NewEntryAttribute name vals) (NewEntryAttribute name [text x]))
      with (NewEntryAttribute name (vals ++ [text x])).
    rewrite IH, <- List.app_assoc. reflexivity.
Qed.

Lemma encodeElems_dropZeros name enc ty xs :
  Forall (fun x => scalarCase ty x) xs ->
  (forall x, scalarCase ty x ->
             enc x = if IsZero x then Ok (None, "")
                     else Ok (Some (NewEntryAttribute name [text x]), "")) ->
  encodeElems name enc xs None
  = if existsb IsZero (dropZeros xs) then Panic
    else Ok (Some (NewEntryAttribute name (map text (dropZeros xs))), "").
Proof.
  intros Hall Henc. induction Hall as [|x xs Hx Hxs IH]; cbn [encodeElems dropZeros].
  - reflexivity.
  - rewrite (Henc x Hx). destruct (IsZero x) eqn:Ez; [exact IH|].
    rewrite (encodeElems_started name enc ty xs Hxs Henc [text x]).
    cbn [existsb map]. rewrite Ez. reflexivity.
Qed.

(** X15: A list field whose elements are text, integers or byte buffers: the
    zero elements at its head are left out, the others give one value each,
    and a zero element after one that is not zero makes the encoder panic
    (the attribute of an omitted element is nil, and is dereferenced). *)
Theorem zero_element_after_a_value_panics :
  forall L name ty xs omit,
    isDN L name = false ->
    isByteKind ty = false ->
    Forall (fun x => scalarCase ty x) xs ->
    V3.encodeField L name (TSlice ty) (VSlice xs) omit false
    = (if existsb IsZero (dropZeros xs) then Panic
       else Ok (Some (NewEntryAttribute name (map text (dropZeros xs))), ""))
    /\ Root.encodeField L name (TSlice ty) (VSlice xs) omit false true
       = (if existsb IsZero (dropZeros xs) then Panic
          else Ok (Some (NewEntryAttribute name (map text (dropZeros xs))), "")).
Proof.
  intros L name ty xs omit Hdn Hb Hall.
  destruct (not_byte_kind _ Hb) as [_ Hst]. split.
  - cbn [V3.encodeField IsZero]. rewrite andb_false_r, Hdn.
    cbn [valueEncoder]. rewrite Hst. cbn [isSlice kind elemOf].
    apply (encodeElems_dropZeros name _ ty xs Hall).
    intros x Hx. destruct (IsZero x) eqn:Ez.
    + destruct x; cbn [V3.encodeField andb]; rewrite Ez; reflexivity.
    + apply scalar_encode; [exact Hx|exact Hdn|]. rewrite Ez. reflexivity.
  - cbn [Root.encodeField IsZero]. rewrite andb_false_r, Hdn.
    cbn [valueEncoder]. rewrite (Root_not_byte_kind _ Hb).
    cbn [negb addrEncoder isSlice kind elemOf].
    apply (encodeElems_dropZeros name _ ty xs Hall).
    intros x Hx. destruct (IsZero x) eqn:Ez.
    + destruct x; cbn [Root.encodeField andb]; rewrite Ez; reflexivity.
    + apply Root_scalar_encode; [exact Hx|exact Hdn|]. rewrite Ez. reflexivity.
Qed.

Lemma zero_element_after_a_value_panics_witness :
  V3.encodeField asciiLibs "s" (TSlice TString)
    (VSlice [VString ""; VString "a"; VString ""; VString "b"]) false false
  = Panic
  /\ Root.encodeField asciiLibs "s" (TSlice TString)
       (VSlice [VString ""; VString "a"; VString ""; VString "b"]) false false true
     = Panic.
Proof.
  apply (zero_element_after_a_value_panics asciiLibs "s" TString
           [VString ""; VString "a"; VString ""; VString "b"] false).
  - reflexivity.
  - reflexivity.
  - repeat constructor.
Defined.

(** ** The decoder stops at the first error *)


Lemma Root_decodeFields_app L e emb pre :
  forall vpre fs vs ro,
    List.length pre = List.length vpre ->
    Root.decodeFields L e emb (pre ++ fs)%list (vpre ++ vs)%list ro
    = match Root.decodeFields L e emb pre vpre ro with
      | Return vpre' None => onState (app vpre') (Root.decodeFields L e emb fs vs ro)
      | Return vpre' (Some err) => Return (vpre' ++ vs)%list (Some err)
      | Crash => Crash
      end.
Proof.
  induction pre as [|f pre IH]; intros [|v vpre] fs vs ro Hlen; try discriminate.
  - cbn [app Root.decodeFields].
    destruct (Root.decodeFields L e emb fs vs ro); reflexivity.
  - cbn [app Root.decodeFields].
    destruct (Root.decodeOne L e emb f v ro) as [fv' [err|]|]; try reflexivity.
    rewrite IH by (cbn in Hlen; lia).
    destruct (Root.decodeFields L e emb pre vpre ro) as [vpre' [err|]|]; try reflexivity.
    destruct (Root.decodeFields L e emb fs vs ro); reflexivity.
Qed.



(** ** An attribute named dn *)

Lemma getAttributeValues_withoutDN L attrs a :
  isDN L a = false ->
  getAttributeValues L (filter (notNamedDN L) attrs) a = getAttributeValues L attrs a.
Proof.
  intros Ha. induction attrs as [|x attrs IH]; [reflexivity|].
  cbn [filter getAttributeValues]. unfold notNamedDN at 1.
  destruct (isDN L (Name x)) eqn:Ex; cbn [negb getAttributeValues].
  - destruct (String.eqb_spec (ToLower L (Name x)) (ToLower L a)) as [E|E]; [|exact IH].
    unfold isDN in Ex, Ha. rewrite E in Ex. congruence.
  - rewrite IH. reflexivity.
Qed.

Lemma V3_decodeFields_withoutDN L e emb emb' fs :
  Forall (fun f => forall v ro, emb (fType f) v ro = emb' (fType f) v ro) fs ->
  forall vs ro,
    V3.decodeFields L e emb fs vs ro = V3.decodeFields L (withoutDN L e) emb' fs vs ro.
Proof.
  induction 1 as [|f fs Hf _ IH]; intros [|v vs] ro; try reflexivity.
  cbn [V3.decodeFields].
  assert (E : V3.decodeOne L e emb f v ro = V3.decodeOne L (withoutDN L e) emb' f v ro).
  { unfold V3.decodeOne. rewrite Hf. cbn [withoutDN DN Attributes].
    destruct (isDN L (attrName (parseTag L f))) eqn:Edn; [reflexivity|].
    rewrite (getAttributeValues_withoutDN L _ _ Edn). reflexivity. }
  rewrite E, IH. reflexivity.
Qed.

Lemma V3_decodeStruct_withoutDN L e t :
  forall v ro, V3.decodeStruct L e t v ro = V3.decodeStruct L (withoutDN L e) t v ro.
Proof.
  induction t as [| | | | | | |fs IH| |n ms u IH|] using rtype_fields_ind; intros v ro;
    try reflexivity.
  - cbn [V3.decodeStruct]. destruct v; try reflexivity.
    rewrite (V3_decodeFields_withoutDN L e _ (V3.decodeStruct L (withoutDN L e)) fs IH).
    reflexivity.
  - cbn [V3.decodeStruct]. apply IH.
Qed.

Lemma Root_decodeFields_withoutDN L e emb emb' fs :
  Forall (fun f => forall v ro, emb (fType f) v ro = emb' (fType f) v ro) fs ->
  forall vs ro,
    Root.decodeFields L e emb fs vs ro = Root.decodeFields L (withoutDN L e) emb' fs vs ro.
Proof.
  induction 1 as [|f fs Hf _ IH]; intros [|v vs] ro; try reflexivity.
  cbn [Root.decodeFields].
  assert (E : Root.decodeOne L e emb f v ro = Root.decodeOne L (withoutDN L e) emb' f v ro).
  { unfold Root.decodeOne. rewrite Hf. cbn [withoutDN DN Attributes].
    destruct (isDN L (attrName (parseTag L f))) eqn:Edn; [reflexivity|].
    rewrite (getAttributeValues_withoutDN L _ _ Edn). reflexivity. }
  rewrite E, IH. reflexivity.
Qed.

Lemma Root_decodeStruct_withoutDN L e t :
  forall v ro, Root.decodeStruct L e t v ro = Root.decodeStruct L (withoutDN L e) t v ro.
Proof.
  induction t as [| | | | | | |fs IH| |n ms u IH|] using rtype_fields_ind; intros v ro;
    try reflexivity.
  - cbn [Root.decodeStruct]. destruct v; try reflexivity.
    rewrite (Root_decodeFields_withoutDN L e _ (Root.decodeStruct L (withoutDN L e)) fs IH).
    reflexivity.
  - cbn [Root.decodeStruct]. unfold Root.timeFieldHit. cbn [existsb withoutDN Attributes].
    rewrite !getAttributeValues_withoutDN by reflexivity. reflexivity.
  - cbn [Root.decodeStruct]. apply IH.
Qed.

(** X17: The decoders never read an attribute named dn (in any letter case):
    the identity comes from the entry's DN alone, and the result is the same
    with such attributes taken out of the entry. *)
Theorem attribute_named_dn_is_never_read :
  forall L e,
    (forall t v ro,
        V3.decodeStruct L e t v ro = V3.decodeStruct L (withoutDN L e) t v ro)
    /\ (forall v,
           V3.Decode L (NewDecoder false) e v
           = V3.Decode L (NewDecoder false) (withoutDN L e) v)
    /\ (forall v,
           Root.Decode L (NewDecoder0 e) v
           = Root.Decode L (NewDecoder0 (withoutDN L e)) v).
Proof.
  intros L e. repeat split.
  - intros t v ro. apply V3_decodeStruct_withoutDN.
  - intros [[t x]|]; [|reflexivity]. unfold V3.Decode. cbn [NewDecoder V3.useInterface].
    destruct x; try reflexivity.
    rewrite V3_decodeStruct_withoutDN. reflexivity.
  - intros [[t x]|]; [|reflexivity]. unfold Root.Decode. cbn [NewDecoder0 Root.e].
    destruct x; try reflexivity.
    rewrite Root_decodeStruct_withoutDN. reflexivity.
Qed.

(** ** Fields the traversals pass over *)









(** ** Booleans, both ways *)

(** X3: The text the later encoder writes for a boolean is read back as the
    same boolean by the decoder of src/v3; the decoder reports no error on
    any text, it reads everything but [TRUE] (in any letter case) as
    false. *)
Theorem boolean_text_is_read_back :
  forall L name (b : bool) omitEmpty addr v a,
    isDN L name = false ->
    omitEmpty && negb b = false ->
    Root.encodeField L name TBool (VBool b) omitEmpty false addr
    = Ok (Some (NewEntryAttribute name [boolText b]), "")
    /\ V3.setValue L TBool v (boolText b) false = Return (VBool b) None
    /\ V3.setValue L TBool v a false = Return (VBool (ToUpper L a =? "TRUE")%string) None.
Proof.
  intros L name b omitEmpty addr v a Hdn Hz. repeat split.
  - cbn [Root.encodeField IsZero]. rewrite Hz, Hdn. reflexivity.
  - destruct b; reflexivity.
Qed.

Lemma boolean_text_is_read_back_witness :
  Root.encodeField asciiLibs "bool" TBool (VBool false) false false true
  = Ok (Some (NewEntryAttribute "bool" [boolText false]), "")
  /\ V3.setValue asciiLibs TBool (VBool true) (boolText false) false
     = Return (VBool false) None
  /\ V3.setValue asciiLibs TBool (VBool true) "true" false
     = Return (VBool (ToUpper asciiLibs "true" =? "TRUE")%string) None.
Proof.
  apply (boolean_text_is_read_back asciiLibs "bool" false false true (VBool true) "true");
    reflexivity.
Defined.

(** ** Embedded fields that are not structs *)





(** ** Numbers and times *)

Lemma formatInt_negative n : n < 0 -> parseDigits (formatInt n) = None.
Proof.
  intros Hn. destruct n as [|p|p]; try lia.
  unfold formatInt, parseDigits. cbn [Z.to_int NilEmpty.string_of_int NilEmpty.uint_of_string].
  destruct (NilEmpty.uint_of_string (NilEmpty.string_of_uint (Pos.to_uint p))); reflexivity.
Qed.

(** X19: The decoders parse an integer as a 64-bit one and store it in the
    field whatever its width: a number that does not fit is cut to the
    width of the field, no error is reported. A negative number for an
    unsigned field is an error, and the field is left as it was. *)
Theorem integer_is_cut_to_the_width_of_the_field :
  forall L s v n,
    (- 2 ^ 63 <= n < 2 ^ 63 ->
     V3.setValue L (TInt s) v (formatInt n) false = Return (VInt (wrapS (bits s) n)) None
     /\ Root.setValue L (TInt s) v (formatInt n) false
        = Return (VInt (wrapS (bits s) n)) None)
    /\ (0 <= n < 2 ^ 64 ->
        V3.setValue L (TUint s) v (formatInt n) false = Return (VUint (wrapU (bits s) n)) None
        /\ Root.setValue L (TUint s) v (formatInt n) false
           = Return (VUint (wrapU (bits s) n)) None)
    /\ (n < 0 ->
        V3.setValue L (TUint s) v (formatInt n) false
        = Return v (Some (NumError "ParseUint" (formatInt n) false))
        /\ Root.setValue L (TUint s) v (formatInt n) false
           = Return v (Some (NumError "ParseUint" (formatInt n) false))).
Proof.
  intros L s v n. split; [|split]; intros Hn; split;
    cbn [V3.setValue V3.setValueBody Root.setValue Root.setValueBody kind isPtr andb
         valueDecoder addrDecoder];
    rewrite andb_false_r.
  - unfold ParseInt. rewrite parseSigned_formatInt by exact Hn. reflexivity.
  - unfold ParseInt. rewrite parseSigned_formatInt by exact Hn. reflexivity.
  - rewrite ParseUint_formatInt by exact Hn. reflexivity.
  - rewrite ParseUint_formatInt by exact Hn. reflexivity.
  - unfold ParseUint. rewrite formatInt_negative by exact Hn. reflexivity.
  - unfold ParseUint. rewrite formatInt_negative by exact Hn. reflexivity.
Qed.

Lemma integer_is_cut_to_the_width_of_the_field_witness :
  V3.setValue asciiLibs (TInt I8) (VInt 0) (formatInt 300) false = Return (VInt 44) None
  /\ Root.setValue asciiLibs (TInt I8) (VInt 0) (formatInt 300) false = Return (VInt 44) None.
Proof.
  apply (integer_is_cut_to_the_width_of_the_field asciiLibs I8 (VInt 0) 300). lia.
Defined.

(** X20: A time field never makes the decoder of src/v3 fail. A text that is a
    whole number is read as a file time, a count of 100-nanosecond steps
    since the year 1601, and converted to whole Unix seconds (when the count
    of nanoseconds since 1970 fits 64 bits); any other text goes through the
    layout, and gives the zero time when it does not match. *)
Theorem time_text_never_fails :
  forall L v a,
    (exists sec nsec, V3.setValue L TTime v a false = Return (VTime sec nsec) None)
    /\ (forall n,
           a = formatInt n ->
           - 2 ^ 63 <= (n - fileTimeEpoch) * 100 < 2 ^ 63 ->
           V3.setValue L TTime v a false
           = Return (VTime ((n - fileTimeEpoch) / 10000000) 0) None)
    /\ (V3.isOk (Atoi a) = false ->
        parseLayout L a = None ->
        V3.setValue L TTime v a false = Return (VTime zeroTimeSec 0) None).
Proof.
  intros L v a.
  assert (E : V3.setValue L TTime v a false
              = Return (if V3.isOk (Atoi a) then V3.decodeDateTime a else V3.decodeTime L a) None).
  { reflexivity. }
  rewrite E. split; [|split].
  - destruct (V3.isOk (Atoi a)).
    + unfold V3.decodeDateTime. eauto.
    + unfold V3.decodeTime. destruct (parseLayout L a) as [[sec nsec]|]; eauto.
  - intros n -> Hn. unfold fileTimeEpoch in *.
    assert (Hr : - 2 ^ 63 <= n < 2 ^ 63) by lia.
    unfold Atoi. rewrite parseSigned_formatInt by exact Hr. cbn [V3.isOk].
    unfold V3.decodeDateTime, V3.atoi, Atoi. rewrite parseSigned_formatInt by exact Hr.
    rewrite (wrapS_small 64 (n - 116444736000000000)) by lia.
    rewrite wrapS_small by lia.
    replace 1000000000 with (10000000 * 100) by reflexivity.
    rewrite Z.div_mul_cancel_r by lia. reflexivity.
  - intros Ha Hl. rewrite Ha. unfold V3.decodeTime. rewrite Hl. reflexivity.
Qed.

Lemma time_text_never_fails_witness :
  V3.setValue asciiLibs TTime (VTime zeroTimeSec 0) (formatInt 132223104000000000) false
  = Return (VTime 1577836800 0) None.
Proof.
  apply (time_text_never_fails asciiLibs (VTime zeroTimeSec 0)
           (formatInt 132223104000000000)) with (n := 132223104000000000).
  - reflexivity.
  - unfold fileTimeEpoch. lia.
Defined.

(** ** Defined types *)



(** ** The lookup of an attribute *)

(** X5: [getAttributeValues] returns the values of the first attribute that
    carries the name up to letter case, whatever comes after it (another
    attribute of the same name is never read), and finds nothing exactly
    when no attribute carries the name. *)
Theorem first_attribute_of_the_name_wins :
  forall L attrs attribute,
    (forall pre a post,
        attrs = (pre ++ a :: post)%list ->
        forallb (fun x => negb (named L attribute x)) pre = true ->
        named L attribute a = true ->
        getAttributeValues L attrs attribute = Some (Values a))
    /\ (getAttributeValues L attrs attribute = None
        <-> forallb (fun x => negb (named L attribute x)) attrs = true).
Proof.
  intros L attrs attribute. split.
  - intros pre a post -> Hpre Ha. induction pre as [|x pre IH].
    + cbn [app getAttributeValues]. unfold named in Ha. rewrite Ha. reflexivity.
    + cbn [forallb] in Hpre. apply andb_true_iff in Hpre. destruct Hpre as [Hx Hpre].
      apply negb_true_iff in Hx. unfold named in Hx.
      cbn [app getAttributeValues]. rewrite Hx. apply IH, Hpre.
  - induction attrs as [|x attrs IH]; cbn [getAttributeValues forallb].
    + split; reflexivity.
    + unfold named at 1. destruct (ToLower L (Name x) =? ToLower L attribute)%string;
        cbn [negb andb]; [split; discriminate|exact IH].
Qed.

Lemma first_attribute_of_the_name_wins_witness :
  getAttributeValues asciiLibs
    ([NewEntryAttribute "cn" ["x"]] ++ NewEntryAttribute "Mail" ["a"]
       :: [NewEntryAttribute "mail" ["b"]]) "mail"
  = Some (Values (NewEntryAttribute "Mail" ["a"])).
Proof.
  apply (first_attribute_of_the_name_wins asciiLibs
           ([NewEntryAttribute "cn" ["x"]] ++ NewEntryAttribute "Mail" ["a"]
              :: [NewEntryAttribute "mail" ["b"]]) "mail")
    with (pre := [NewEntryAttribute "cn" ["x"]]) (post := [NewEntryAttribute "mail" ["b"]]);
    reflexivity.
Defined.

(** ** The entry of a record *)



(** ** The tag *)

Lemma chars_app s1 s2 : chars (s1 ++ s2) = (chars s1 ++ chars s2)%list.
Proof.
  unfold chars. induction s1 as [|c s1 IH]; cbn; [reflexivity|]. rewrite IH. reflexivity.
Qed.

Lemma str_chars s : str (chars s) = s.
Proof. apply string_of_list_ascii_of_string. Qed.

Lemma splitComma_not_nil l : splitComma l <> [].
Proof.
  destruct l as [|c l]; cbn; [discriminate|].
  destruct (c =? ",")%char; [discriminate|]. destruct (splitComma l); discriminate.
Qed.

Lemma splitComma_one l :
  existsb (fun c => (c =? ",")%char) l = false -> splitComma l = [l].
Proof.
  induction l as [|c l IH]; cbn; [reflexivity|]. intros H.
  apply orb_false_iff in H. destruct H as [Hc Hl]. rewrite Hc, (IH Hl). reflexivity.
Qed.

Lemma splitComma_first (l r : list ascii) :
  existsb (fun c => (c =? ",")%char) l = false ->
  splitComma (l ++ ","%char :: r) = l :: splitComma r.
Proof.
  induction l as [|c l IH]; cbn; [reflexivity|]. intros H.
  apply orb_false_iff in H. destruct H as [Hc Hl]. rewrite Hc, (IH Hl). reflexivity.
Qed.

Lemma Split_tagText name options :
  noComma name = true ->
  Split (tagText name options)
  = name :: match options with Some o => Split o | None => [] end.
Proof.
  unfold noComma, Split. intros H. apply negb_true_iff in H.
  destruct options as [o|]; cbn [tagText].
  - rewrite chars_app. change (chars ("," ++ o)) with (","%char :: chars o).
    rewrite (splitComma_first _ _ H). cbn [map]. rewrite str_chars. reflexivity.
  - rewrite (splitComma_one _ H). cbn [map]. rewrite str_chars. reflexivity.
Qed.

(** X22: The name [parseTag] gives a tagged field is the text of the tag
    before the first comma, taken as it is written, white space included,
    and empty when the tag is empty or starts with a comma: the default name
    is not used then. When that text is [-] once trimmed, the field is
    ignored whatever follows the comma, and the name stays the default
    one. *)
Theorem tag_name_is_taken_as_written :
  forall L sf name options,
    fTag sf = Some (tagText name options) ->
    noComma name = true ->
    ignored (parseTag L sf) = (TrimSpace name =? "-")%string
    /\ attrName (parseTag L sf)
       = if (TrimSpace name =? "-")%string then defaultName L (fName sf) else name.
Proof.
  intros L sf name options Ht Hn. unfold parseTag.
  rewrite Ht, (Split_tagText name options Hn).
  destruct (TrimSpace name =? "-")%string; split; reflexivity.
Qed.

Lemma tag_name_is_taken_as_written_witness :
  ignored (parseTag asciiLibs (field "Mail" (Some (tagText "" (Some "omitempty"))) TString))
  = (TrimSpace "" =? "-")%string
  /\ attrName (parseTag asciiLibs
                 (field "Mail" (Some (tagText "" (Some "omitempty"))) TString))
     = "".
Proof.
  apply (tag_name_is_taken_as_written asciiLibs
           (field "Mail" (Some (tagText "" (Some "omitempty"))) TString) "" (Some "omitempty"));
    reflexivity.
Defined.

(** ** Fields that are not exported, in the earlier encoder and decoder *)



(** X24: The decoder bound to one entry has no visibility check either: when
    the entry holds a value for a field that is not exported and is not a
    list (or when such a field is the identity), writing the field panics,
    so decoding panics once the fields before it are decoded. The decoder of
    src/v3 passes such a field over when its name starts with a lower-case
    letter. *)
Theorem earlier_decoder_panics_on_unexported_field :
  forall L e pre ft post vpre fv vpost vpre' ro,
    List.length pre = List.length vpre ->
    exported L (fName ft) = false ->
    ignored (parseTag L ft) = false ->
    fAnonymous ft = false ->
    isSlice (fType ft) = false ->
    (if isDN L (attrName (parseTag L ft)) then true
     else match getAttributeValues L (Attributes e) (attrName (parseTag L ft)) with
          | Some (_ :: _) => true
          | _ => false
          end) = true ->
    Root.decodeFields L e (Root.decodeStruct L e) pre vpre ro = Return vpre' None ->
    Root.decodeStruct L e (TStruct (pre ++ ft :: post)) (VStruct (vpre ++ fv :: vpost)) ro
    = Crash
    /\ (upperFirst (fName ft) = false ->
        forall emb, V3.decodeOne L e emb ft fv ro = Return fv None).
Proof.
  intros L e pre ft post vpre fv vpost vpre' ro Hlen He Hi Ha Hs Hv Hpre. split.
  - cbn [Root.decodeStruct]. rewrite Root_decodeFields_app, Hpre by exact Hlen.
    cbn [Root.decodeFields]. unfold Root.decodeOne. rewrite Hi, Ha, He.
    rewrite orb_true_r.
    assert (Hset : forall a, Root.setValue L (fType ft) fv a true = Crash)
      by (intros a; destruct (fType ft); reflexivity).
    destruct (isDN L (attrName (parseTag L ft))); [rewrite Hset; reflexivity|].
    destruct (getAttributeValues L (Attributes e) (attrName (parseTag L ft)))
      as [[|va rest]|]; try discriminate.
    unfold Root.decodeStructField. rewrite Hs, Hset. reflexivity.
  - intros Hu emb. unfold V3.decodeOne. rewrite Hu. reflexivity.
Qed.

Lemma earlier_decoder_panics_on_unexported_field_witness :
  Root.decodeStruct asciiLibs {| DN := dn; Attributes := [NewEntryAttribute "secret" ["s"]] |}
    (TStruct ([field "DN" None TString] ++ field "secret" None TString :: []))
    (VStruct ([VString ""] ++ VString "" :: [])) false
  = Crash
  /\ (upperFirst (fName (field "secret" None TString)) = false ->
      forall emb,
        V3.decodeOne asciiLibs {| DN := dn; Attributes := [NewEntryAttribute "secret" ["s"]] |}
          emb (field "secret" None TString) (VString "") false
        = Return (VString "") None).
Proof.
  apply (earlier_decoder_panics_on_unexported_field asciiLibs
           {| DN := dn; Attributes := [NewEntryAttribute "secret" ["s"]] |}
           [field "DN" None TString] (field "secret" None TString) []
           [VString ""] (VString "") [] [VString dn] false); reflexivity.
Defined.

(** ** The two encoders on the same record *)




(** ** The errors of [Unmarshal] *)















(** ** Arguments that are not records *)





